(** * textual_kitty.widget._base: the [Image] widget and its cell-size resolution

    A shallow embedding of [src/textual_kitty/widget/_base.py].  The widget's
    methods are state transformers over a [World] (the widget object plus
    the observable calls it makes); Python exceptions are the [Raises]
    outcome.  [ImageSize.get_cell_size] (textual_kitty.geometry),
    [PixelMeta] (textual_kitty.pixeldata) and [get_terminal_sizes]
    (textual_kitty.terminal) are imported by the file but defined
    elsewhere: the widget takes them as parameters, and the resolver is
    modelled separately from its written specification. *)

From Stdlib Require Import ZArith QArith Qround Qabs List String Bool Lia.
Import ListNotations.

Open Scope Z_scope.

(** ** Python-level data *)

(** Exceptions that travel through the widget's methods; one the file
    does not name itself is known by its class name. *)
Inductive Exception : Type :=
| AssertionError
| InvalidMetrics
| OtherException (name : string).

(** The result of a call: it returns a value or raises. *)
Inductive Outcome (A : Type) : Type :=
| Returns (a : A)
| Raises (e : Exception).

Arguments Returns {A} a.
Arguments Raises {A} e.

Definition outcome_map {A B : Type} (f : A -> B) (o : Outcome A) : Outcome B :=
  match o with
  | Returns a => Returns (f a)
  | Raises e => Raises e
  end.

(** [str | Path | PIL.Image.Image]; the widget's [image] is one of these
    or [None]. *)
Inductive ImageSource : Type :=
| SrcStr (s : string)
| SrcPath (p : string)
| SrcPIL (handle : nat).

Definition ImageValue : Type := option ImageSource.

(** [bool(value)]: [None] and the empty [str] are falsy; a [Path] and a
    PIL image define neither [__bool__] nor [__len__] and are truthy. *)
Definition truthy (value : ImageValue) : bool :=
  match value with
  | None => false
  | Some (SrcStr EmptyString) => false
  | Some _ => true
  end.

(** [textual.geometry.Size]. *)
Module Size.
Record t : Type := mk { width : Z; height : Z }.
End Size.

(** What [_get_styled_dimension] returns besides [None]: the literal
    ["auto"] or an [int].  [None] is the [None] of [option]. *)
Inductive CellDimension : Type :=
| Auto
| Fixed (n : Z).

(** The arguments of [ImageSize(image_width, image_height, width=, height=)]. *)
Module ImageSize.
Record t : Type := mk {
  pixelWidth : Z;
  pixelHeight : Z;
  width : option CellDimension;
  height : option CellDimension
}.
End ImageSize.

(** [textual.css.scalar]: a style's width or height is a [Scalar], a
    number with its unit; [Scalar.is_auto] is [unit == Unit.AUTO]. *)
Inductive Unit : Type :=
| UCells | UFraction | UPercent | UWidth | UHeight | UViewWidth | UViewHeight | UAuto.

Module Scalar.
Record t : Type := mk { value : Z; unit : Unit }.
End Scalar.

Definition is_auto (style : Scalar.t) : bool :=
  match Scalar.unit style with
  | UAuto => true
  | _ => false
  end.

(** The two attributes of [RenderStyles] the widget reads. *)
Module RenderStyles.
Record t : Type := mk { width : option Scalar.t; height : option Scalar.t }.
End RenderStyles.

(** [Literal["width", "height"]], the attribute name given to [getattr]. *)
Inductive Dimension : Type := dim_width | dim_height.

Definition getattr_styles (styles : RenderStyles.t) (dimension : Dimension)
  : option Scalar.t :=
  match dimension with
  | dim_width => RenderStyles.width styles
  | dim_height => RenderStyles.height styles
  end.

Definition getattr_size (size : Size.t) (dimension : Dimension) : Z :=
  match dimension with
  | dim_width => Size.width size
  | dim_height => Size.height size
  end.

(** An object built by [self.Renderable(image, width, height)]: its
    identity and the three constructor arguments. *)
Record Renderable : Type := {
  rid : nat;
  r_image : ImageValue;
  r_width : option CellDimension;
  r_height : option CellDimension
}.

(** What [PixelMeta(value)] exposes to the widget. *)
Record PixelMetaT : Type := { pm_width : Z; pm_height : Z }.

(** ** The widget object and the world around it *)

(** The attributes of an [Image] instance that [_base.py] reads or writes.
    [styles] and [content_size] belong to Textual's [Widget]. *)
Record Image : Type := {
  _renderable : option Renderable;
  _image : ImageValue;
  _image_width : Z;
  _image_height : Z;
  styles : RenderStyles.t;
  content_size : Size.t
}.

(** Calls that leave the widget, in the order they happen. *)
Inductive Event : Type :=
| EvCleanup (r : Renderable)
| EvRefresh
| EvGetTerminalSizes
| EvNewRenderable (r : Renderable).

Record World : Type := {
  self : Image;
  n_queries : nat;
  next_rid : nat;
  trace : list Event
}.

Definition with_self (i : Image) (w : World) : World :=
  {| self := i; n_queries := n_queries w; next_rid := next_rid w; trace := trace w |}.

Definition emit (e : Event) (w : World) : World :=
  {| self := self w; n_queries := n_queries w; next_rid := next_rid w;
     trace := trace w ++ [e] |}.

Definition set_renderable (r : option Renderable) (i : Image) : Image :=
  {| _renderable := r; _image := _image i; _image_width := _image_width i;
     _image_height := _image_height i; styles := styles i;
     content_size := content_size i |}.

Definition set_image (v : ImageValue) (i : Image) : Image :=
  {| _renderable := _renderable i; _image := v; _image_width := _image_width i;
     _image_height := _image_height i; styles := styles i;
     content_size := content_size i |}.

Definition set_image_width (n : Z) (i : Image) : Image :=
  {| _renderable := _renderable i; _image := _image i; _image_width := n;
     _image_height := _image_height i; styles := styles i;
     content_size := content_size i |}.

Definition set_image_height (n : Z) (i : Image) : Image :=
  {| _renderable := _renderable i; _image := _image i; _image_width := _image_width i;
     _image_height := n; styles := styles i;
     content_size := content_size i |}.

(** ** A state-and-exception monad for method bodies *)

Definition M (A : Type) : Type := World -> Outcome A * World.

Definition ret {A : Type} (a : A) : M A := fun w => (Returns a, w).

Definition raise {A : Type} (e : Exception) : M A := fun w => (Raises e, w).

Definition bind {A B : Type} (m : M A) (k : A -> M B) : M B :=
  fun w =>
    match m w with
    | (Returns a, w') => k a w'
    | (Raises e, w') => (Raises e, w')
    end.

Declare Scope py_scope.
Delimit Scope py_scope with py.

Notation "x <- m ;; k" := (bind m (fun x => k))
  (at level 61, m at next level, right associativity) : py_scope.
Notation "m ;; k" := (bind m (fun _ => k))
  (at level 61, right associativity) : py_scope.

Open Scope py_scope.

Definition get_self : M Image := fun w => (Returns (self w), w).

Definition modify_self (f : Image -> Image) : M unit :=
  fun w => (Returns tt, with_self (f (self w)) w).

(** [value] returned by a pure callee, or its exception re-raised. *)
Definition lift {A : Type} (o : Outcome A) : M A := fun w => (o, w).

(** [assert cond] *)
Definition py_assert (cond : bool) : M unit :=
  if cond then ret tt else raise AssertionError.

(** [r.cleanup()] *)
Definition cleanup (r : Renderable) : M unit :=
  fun w => (Returns tt, emit (EvCleanup r) w).

(** [self.refresh()] *)
Definition refresh : M unit :=
  fun w => (Returns tt, emit EvRefresh w).

(** [self.Renderable(image, width, height)]: a new object. *)
Definition new_Renderable (image : ImageValue)
  (width height : option CellDimension) : M Renderable :=
  fun w =>
    let r := {| rid := next_rid w; r_image := image;
                r_width := width; r_height := height |} in
    (Returns r,
     {| self := self w; n_queries := n_queries w; next_rid := S (next_rid w);
        trace := trace w ++ [EvNewRenderable r] |}).

(** ** Style resolution (lines 103-117) *)

Definition _get_styled_dimension (this : Image) (styles : RenderStyles.t)
  (dimension : Dimension) : option CellDimension :=
  match getattr_styles styles dimension with
  | None => None
  | Some style =>
      if is_auto style then Some Auto
      else Some (Fixed (getattr_size (content_size this) dimension))
  end.

Definition _get_styled_size (this : Image)
  : option CellDimension * option CellDimension :=
  let width := _get_styled_dimension this (styles this) dim_width in
  let height := _get_styled_dimension this (styles this) dim_height in
  (width, height).

(** ** The cell-size resolver, from its written specification

    [ImageSize.get_cell_size] lives in textual_kitty.geometry, outside the
    file embedded here.  The specification calls it [resolveCellSize]. *)

Module CellSizeResolver.

(** Modelled from the spec: TerminalCellMetrics (section 3),
    [{cellPixelWidth: float, cellPixelHeight: float}], the body of
    textual_kitty.terminal's sizes that is missing here.  The two floats
    are read as exact rationals. *)
Record TerminalCellMetrics : Type := {
  cellPixelWidth : Q;
  cellPixelHeight : Q
}.

(** Modelled from the spec: the metrics "must have non-zero components";
    section 7 names the failure "zero or negative cell pixel size".
    This is the check missing from the absent resolver. *)
Definition invalid_metrics (terminalMetrics : TerminalCellMetrics) : bool :=
  Qle_bool (cellPixelWidth terminalMetrics) 0
  || Qle_bool (cellPixelHeight terminalMetrics) 0.

(** Modelled from the spec: [cellsNeeded = ceil(pixelDimension /
    cellPixelDimension)] of step 1, the conversion the absent resolver
    applies on each axis. *)
Definition cellsNeeded (pixelDimension cellPixelDimension : Q) : Z :=
  Qceiling (pixelDimension / cellPixelDimension).

(** Modelled from the spec: step 5, "final width <= container.width,
    final height <= container.height", the clamp of the absent resolver. *)
Definition clamp (cells bound : Z) : Z := Z.min cells bound.

(** Modelled from the spec: the pixel length of the derived axis in
    step 2 of the absent resolver, as the scenario computes it:
    [400 * (40*10/800)], the other pixel dimension scaled by the fixed
    axis's pixel length over its native length. *)
Definition derivedPixels (otherPixels : Z) (n : Z) (cellPixels : Q)
  (fixedPixels : Z) : Q :=
  inject_Z otherPixels * (inject_Z n * cellPixels / inject_Z fixedPixels).

(** Modelled from the spec: steps 1 to 4 of section 4.1, the size before
    clamping that the absent [ImageSize.get_cell_size] computes.  The
    spec gives no rule for one dimension unset and the other Auto; with
    no Fixed axis it is sized like steps 1 and 4. *)
Definition rawCellSize (imageSize : ImageSize.t)
  (terminalMetrics : TerminalCellMetrics) : Z * Z :=
  let pw := ImageSize.pixelWidth imageSize in
  let ph := ImageSize.pixelHeight imageSize in
  let cw := cellPixelWidth terminalMetrics in
  let ch := cellPixelHeight terminalMetrics in
  match ImageSize.width imageSize, ImageSize.height imageSize with
  | Some (Fixed n), Some (Fixed m) => (n, m)
  | Some (Fixed n), _ => (n, cellsNeeded (derivedPixels ph n cw pw) ch)
  | _, Some (Fixed m) => (cellsNeeded (derivedPixels pw m ch ph) cw, m)
  | _, _ => (cellsNeeded (inject_Z pw) cw, cellsNeeded (inject_Z ph) ch)
  end.

(** Modelled from the spec: [resolveCellSize] of section 4.1, missing
    from the sources as [ImageSize.get_cell_size].  An image with a zero
    pixel dimension yields (0, 0) "regardless of other inputs", so that
    case is decided before the metrics are looked at; otherwise invalid
    metrics fail with [InvalidMetrics]; otherwise the raw size is
    clamped to the container on each axis. *)
Definition resolveCellSize (imageSize : ImageSize.t) (container : Size.t)
  (terminalMetrics : TerminalCellMetrics) : Outcome (Z * Z) :=
  if (ImageSize.pixelWidth imageSize =? 0)
     || (ImageSize.pixelHeight imageSize =? 0)
  then Returns (0, 0)
  else if invalid_metrics terminalMetrics then Raises InvalidMetrics
  else
    let '(w, h) := rawCellSize imageSize terminalMetrics in
    Returns (clamp w (Size.width container), clamp h (Size.height container)).

(** The resolver behind the signature the widget calls:
    [get_cell_size(max_width, max_height, terminal_sizes)]. *)
Definition get_cell_size (imageSize : ImageSize.t) (max_width max_height : Z)
  (terminal_sizes : TerminalCellMetrics) : Outcome (Z * Z) :=
  resolveCellSize imageSize (Size.mk max_width max_height) terminal_sizes.

(** The pixel height of [h] cells minus the height that keeps the
    image's aspect ratio at the pixel width of [w] cells. *)
Definition heightError (imageSize : ImageSize.t)
  (terminalMetrics : TerminalCellMetrics) (w h : Z) : Q :=
  inject_Z h * cellPixelHeight terminalMetrics
  - derivedPixels (ImageSize.pixelHeight imageSize) w
      (cellPixelWidth terminalMetrics) (ImageSize.pixelWidth imageSize).

(** The same for the width of [w] cells at the pixel height of [h] cells. *)
Definition widthError (imageSize : ImageSize.t)
  (terminalMetrics : TerminalCellMetrics) (w h : Z) : Q :=
  inject_Z w * cellPixelWidth terminalMetrics
  - derivedPixels (ImageSize.pixelWidth imageSize) h
      (cellPixelHeight terminalMetrics) (ImageSize.pixelHeight imageSize).

(** The claim's "within one cell of rounding": the error is smaller
    than one cell of the derived axis. *)
Definition heightWithinOneCell (imageSize : ImageSize.t)
  (terminalMetrics : TerminalCellMetrics) (w h : Z) : Prop :=
  (Qabs (heightError imageSize terminalMetrics w h)
   < cellPixelHeight terminalMetrics)%Q.

Definition widthWithinOneCell (imageSize : ImageSize.t)
  (terminalMetrics : TerminalCellMetrics) (w h : Z) : Prop :=
  (Qabs (widthError imageSize terminalMetrics w h)
   < cellPixelWidth terminalMetrics)%Q.

(** A requested dimension that is unset or Auto. *)
Definition not_fixed (d : option CellDimension) : Prop :=
  d = None \/ d = Some Auto.

(** The specification types pixel sizes, Fixed counts and container
    bounds as unsigned; here they are integers that are not negative. *)
Definition unsigned_dimension (d : option CellDimension) : Prop :=
  forall n, d = Some (Fixed n) -> 0 <= n.

Definition unsigned_inputs (imageSize : ImageSize.t) (container : Size.t) : Prop :=
  0 <= ImageSize.pixelWidth imageSize
  /\ 0 <= ImageSize.pixelHeight imageSize
  /\ unsigned_dimension (ImageSize.width imageSize)
  /\ unsigned_dimension (ImageSize.height imageSize)
  /\ 0 <= Size.width container
  /\ 0 <= Size.height container.

(** The image and terminal of the specification's scenarios. *)
Definition scenario_metrics : TerminalCellMetrics :=
  {| cellPixelWidth := 10 # 1; cellPixelHeight := 20 # 1 |}.

Definition scenario_image (width height : option CellDimension) : ImageSize.t :=
  ImageSize.mk 800 400 width height.

End CellSizeResolver.

(** ** The widget's methods

    The three names the file imports without defining are the section's
    variables: the answers of [get_terminal_sizes()] in call order (the
    terminal may answer differently from one query to the next), the call
    [ImageSize(...).get_cell_size(...)] with the exception it may raise,
    and the call [PixelMeta(value)]: the width and height of the object it
    returns, or the exception it raises (it opens the image).

    [if self._renderable:] is taken when a renderable is held: what
    [self.Renderable(...)] builds is an instance of a class that gives its
    instances no truth value of their own, so only [None] is falsy. *)

Section Widget.

Variable TerminalSizes : Type.
Variable terminal_answer : nat -> TerminalSizes.
Variable get_cell_size :
  ImageSize.t -> Z -> Z -> TerminalSizes -> Outcome (Z * Z).
Variable PixelMeta : ImageValue -> Outcome PixelMetaT.

(** [get_terminal_sizes()]: one query of the terminal-metrics provider. *)
Definition get_terminal_sizes : M TerminalSizes :=
  fun w =>
    (Returns (terminal_answer (n_queries w)),
     {| self := self w; n_queries := S (n_queries w); next_rid := next_rid w;
        trace := trace w ++ [EvGetTerminalSizes] |}).

(** The [image] setter, lines 56-72. *)
Definition image_setter (value : ImageValue) : M unit :=
  this <- get_self ;;
  match _renderable this with
  | Some r => cleanup r ;; modify_self (set_renderable None)
  | None => ret tt
  end ;;
  modify_self (set_image value) ;;
  (if truthy value then
     pixel_meta <- lift (PixelMeta value) ;;
     modify_self (set_image_width (pm_width pixel_meta)) ;;
     modify_self (set_image_height (pm_height pixel_meta))
   else
     modify_self (set_image_width 0) ;;
     modify_self (set_image_height 0)) ;;
  refresh.

(** The size an assignment of [value] is about to cache: 0 and 0 for a
    falsy value, without a call of [PixelMeta], and otherwise what
    [PixelMeta(value)] returns, or the exception it raises. *)
Definition pixel_size_of (value : ImageValue) : Outcome PixelMetaT :=
  if truthy value then PixelMeta value
  else Returns {| pm_width := 0; pm_height := 0 |}.

(** [__init__], lines 44-46, after [super().__init__]. *)
Definition __init__ (image : ImageValue) : M unit :=
  modify_self (set_renderable None) ;;
  image_setter image.

(** [render], lines 74-83. *)
Definition render : M Renderable :=
  this <- get_self ;;
  py_assert (truthy (_image this)) ;;
  match _renderable this with
  | Some r => cleanup r ;; modify_self (set_renderable None)
  | None => ret tt
  end ;;
  this <- get_self ;;
  let '(width, height) := _get_styled_size this in
  r <- new_Renderable (_image this) width height ;;
  modify_self (set_renderable (Some r)) ;;
  ret r.

(** [get_content_width], lines 85-92. *)
Definition get_content_width (container viewport : Size.t) : M Z :=
  this <- get_self ;;
  let '(styled_width, styled_height) := _get_styled_size this in
  terminal_sizes <- get_terminal_sizes ;;
  size <- lift (get_cell_size
                  (ImageSize.mk (_image_width this) (_image_height this)
                     styled_width styled_height)
                  (Size.width container) (Size.height container)
                  terminal_sizes) ;;
  let '(width, _) := size in
  ret width.

(** [get_content_height], lines 94-101. *)
Definition get_content_height (container viewport : Size.t) (width : Z) : M Z :=
  this <- get_self ;;
  let '(styled_width, styled_height) := _get_styled_size this in
  terminal_sizes <- get_terminal_sizes ;;
  size <- lift (get_cell_size
                  (ImageSize.mk (_image_width this) (_image_height this)
                     styled_width styled_height)
                  width (Size.height container)
                  terminal_sizes) ;;
  let '(_, height) := size in
  ret height.

(** *** The widget's life: construction, then calls in any order

    Textual calls [render] and the two measuring methods, application
    code assigns [image], and the host restyles or lays the widget out,
    which changes [styles] and [content_size] and nothing else. *)
Inductive Call : Type :=
| call_set_image (value : ImageValue)
| call_render
| call_get_content_width (container viewport : Size.t)
| call_get_content_height (container viewport : Size.t) (width : Z)
| host_layout (new_styles : RenderStyles.t) (new_content_size : Size.t).

Definition relayout (new_styles : RenderStyles.t) (new_content_size : Size.t)
  (i : Image) : Image :=
  {| _renderable := _renderable i; _image := _image i;
     _image_width := _image_width i; _image_height := _image_height i;
     styles := new_styles; content_size := new_content_size |}.

(** The world after a call, whether it returned or raised. *)
Definition run_call (c : Call) (w : World) : World :=
  match c with
  | call_set_image value => snd (image_setter value w)
  | call_render => snd (render w)
  | call_get_content_width container viewport =>
      snd (get_content_width container viewport w)
  | call_get_content_height container viewport width =>
      snd (get_content_height container viewport width w)
  | host_layout new_styles new_content_size =>
      with_self (relayout new_styles new_content_size (self w)) w
  end.

(** A world in which nothing has happened yet. *)
Definition blank (i : Image) : World :=
  {| self := i; n_queries := 0; next_rid := 0; trace := [] |}.

(** The worlds a widget can be in.  An [__init__] whose assignment raised
    hands its caller no object; the world it leaves is kept all the same,
    so what holds of every reachable world holds of more than can be
    observed. *)
Inductive Reachable : World -> Prop :=
| reach_init (i : Image) (image : ImageValue) :
    Reachable (snd (__init__ image (blank i)))
| reach_call (w : World) (c : Call) :
    Reachable w -> Reachable (run_call c w).

(** The widget reports a nonzero size: one of the measuring methods
    returns a number other than 0. *)
Definition reports_nonzero_size (w : World) : Prop :=
  (exists container viewport n,
      fst (get_content_width container viewport w) = Returns n /\ n <> 0)
  \/
  (exists container viewport width n,
      fst (get_content_height container viewport width w) = Returns n /\ n <> 0).

End Widget.

Arguments get_terminal_sizes {TerminalSizes} terminal_answer.
Arguments get_content_width {TerminalSizes} terminal_answer get_cell_size.
Arguments get_content_height {TerminalSizes} terminal_answer get_cell_size.
Arguments run_call {TerminalSizes} terminal_answer get_cell_size PixelMeta.
Arguments Reachable {TerminalSizes} terminal_answer get_cell_size PixelMeta.
Arguments reports_nonzero_size {TerminalSizes} terminal_answer get_cell_size.

(** ** Renderables in use

    A renderable is live from its construction to its [cleanup()].  The
    identities live after a trace, and the one the widget holds. *)

Definition live_step (ids : list nat) (e : Event) : list nat :=
  match e with
  | EvNewRenderable r => rid r :: ids
  | EvCleanup r => remove Nat.eq_dec (rid r) ids
  | EvRefresh | EvGetTerminalSizes => ids
  end.

Definition live (t : list Event) : list nat := fold_left live_step t [].

Definition held (i : Image) : list nat :=
  match _renderable i with
  | Some r => [rid r]
  | None => []
  end.

(** The cleanup the setter and [render] start with. *)
Definition cleanup_events (i : Image) : list Event :=
  match _renderable i with
  | Some r => [EvCleanup r]
  | None => []
  end.

Definition count_queries (t : list Event) : nat :=
  List.length (filter (fun e => match e with EvGetTerminalSizes => true | _ => false end) t).

(** Invariants of reachable worlds. *)

(** A falsy image goes with cached pixel dimensions 0 and 0. *)
Definition consistent (i : Image) : Prop :=
  truthy (_image i) = false -> _image_width i = 0 /\ _image_height i = 0.

(** The only live renderable is the one the widget holds. *)
Definition no_leak (w : World) : Prop := live (trace w) = held (self w).

(** Every renderable built so far has an identity below the next one. *)
Definition ids_below_next (w : World) : Prop :=
  forall r, In (EvNewRenderable r) (trace w) -> (rid r < next_rid w)%nat.

Definition invariant (w : World) : Prop :=
  consistent (self w) /\ no_leak w /\ ids_below_next w.

(** The style-resolution step as the claim words it: an explicit style
    yields its own number of cells. *)
Definition requested_cells (style : Scalar.t) : Z := Scalar.value style.

(** ** A concrete widget

    An 800x400 image in a widget styled [width: 20] whose content area,
    after border and padding, is 18 cells wide; the height is not styled.
    The terminal's cells are 10x20 pixels. *)

Definition example_image : ImageValue := Some (SrcPath "cat.png").

Definition example_style : Scalar.t := Scalar.mk 20 UCells.

Definition example_widget : Image :=
  {| _renderable := None;
     _image := None;
     _image_width := 0;
     _image_height := 0;
     styles := RenderStyles.mk (Some example_style) None;
     content_size := Size.mk 18 5 |}.

(** Every image is 800x400, except that the file [missing.png] cannot be
    opened. *)
Definition missing_image : ImageValue := Some (SrcPath "missing.png").

Definition example_PixelMeta (value : ImageValue) : Outcome PixelMetaT :=
  match value with
  | Some (SrcPath p) =>
      if String.eqb p "missing.png"
      then Raises (OtherException "FileNotFoundError")
      else Returns {| pm_width := 800; pm_height := 400 |}
  | _ => Returns {| pm_width := 800; pm_height := 400 |}
  end.

Definition example_terminal (query : nat) : CellSizeResolver.TerminalCellMetrics :=
  CellSizeResolver.scenario_metrics.

(** The widget right after [Image("cat.png")]. *)
Definition example_world : World :=
  snd (__init__ example_PixelMeta example_image (blank example_widget)).

(** ** Reading the image back, whole runs, and what a trace shows *)

(** The [image] getter, lines 48-54. *)
Definition image_getter : M ImageValue :=
  this <- get_self ;;
  ret (_image this).

Section Runs.

Variable TerminalSizes : Type.
Variable terminal_answer : nat -> TerminalSizes.
Variable get_cell_size :
  ImageSize.t -> Z -> Z -> TerminalSizes -> Outcome (Z * Z).
Variable PixelMeta : ImageValue -> Outcome PixelMetaT.

(** The world right after [Image(image)] on a new object. *)
Definition created (image : ImageValue) (i : Image) : World :=
  snd (__init__ PixelMeta image (blank i)).

(** The world after a list of calls, oldest first. *)
Definition run_calls (calls : list Call) (w : World) : World :=
  fold_left (fun w c => run_call terminal_answer get_cell_size PixelMeta c w)
    calls w.

(** Whether call [c], made in world [w], is an assignment to [image] that
    returns rather than raises. *)
Definition assignment_returns (c : Call) (w : World) : bool :=
  match c with
  | call_set_image value =>
      match fst (image_setter PixelMeta value w) with
      | Returns _ => true
      | Raises _ => false
      end
  | _ => false
  end.

(** How many of [calls], made one after the other from [w], are
    assignments that return. *)
Fixpoint returned_assignments (calls : list Call) (w : World) : nat :=
  match calls with
  | [] => 0%nat
  | c :: rest =>
      ((if assignment_returns c w then 1 else 0)
       + returned_assignments rest
           (run_call terminal_answer get_cell_size PixelMeta c w))%nat
  end.

End Runs.

Arguments run_calls {TerminalSizes} terminal_answer get_cell_size PixelMeta.
Arguments returned_assignments {TerminalSizes} terminal_answer get_cell_size
  PixelMeta.

(** The value of the most recent assignment among [calls], or [image] if
    there was none. *)
Definition last_assigned (image : ImageValue) (calls : list Call) : ImageValue :=
  fold_left
    (fun v c => match c with call_set_image value => value | _ => v end)
    calls image.

Definition count_calls (select : Call -> bool) (calls : list Call) : nat :=
  List.length (filter select calls).

Definition is_assignment (c : Call) : bool :=
  match c with call_set_image _ => true | _ => false end.

Definition is_measurement (c : Call) : bool :=
  match c with
  | call_get_content_width _ _ | call_get_content_height _ _ _ => true
  | _ => false
  end.

Definition is_render (c : Call) : bool :=
  match c with call_render => true | _ => false end.

Definition count_events (select : Event -> bool) (t : list Event) : nat :=
  List.length (filter select t).

Definition is_refresh (e : Event) : bool :=
  match e with EvRefresh => true | _ => false end.

Definition is_query (e : Event) : bool :=
  match e with EvGetTerminalSizes => true | _ => false end.

Definition is_construction (e : Event) : bool :=
  match e with EvNewRenderable _ => true | _ => false end.

(** A trace read from its start, keeping the identities that are live and
    those ever used.  Reading stops with [None] at the first construction
    that reuses an identity and at the first [cleanup()] of a renderable
    that is not live: one never built, or one cleaned up already. *)
Definition audit_step (state : option (list nat * list nat)) (e : Event)
  : option (list nat * list nat) :=
  match state with
  | None => None
  | Some (alive, used) =>
      match e with
      | EvNewRenderable r =>
          if in_dec Nat.eq_dec (rid r) used then None
          else Some (rid r :: alive, rid r :: used)
      | EvCleanup r =>
          if in_dec Nat.eq_dec (rid r) alive
          then Some (remove Nat.eq_dec (rid r) alive, used)
          else None
      | EvRefresh | EvGetTerminalSizes => Some (alive, used)
      end
  end.

Definition audit (t : list Event) : option (list nat * list nat) :=
  fold_left audit_step t (Some ([], [])).

(** The trace passes the audit, with the held renderable alone live and
    every used identity below the next one. *)
Definition audited (w : World) : Prop :=
  exists used,
    audit (trace w) = Some (held (self w), used)
    /\ forall id, In id used -> (id < next_rid w)%nat.

(** A session with the example widget: measure, render, restyle, render
    again, drop the image, and measure once more. *)
Definition example_calls : list Call :=
  [ call_get_content_width (Size.mk 100 100) (Size.mk 100 100);
    call_get_content_height (Size.mk 100 100) (Size.mk 100 100) 18;
    call_render;
    host_layout (RenderStyles.mk None None) (Size.mk 80 20);
    call_render;
    call_set_image None;
    call_get_content_width (Size.mk 100 100) (Size.mk 100 100) ].

(** The example widget after that session. *)
Definition example_session : World :=
  run_calls example_terminal CellSizeResolver.get_cell_size example_PixelMeta
    example_calls example_world.

(** * Properties of the widget *)

(** Steps a method body one bind at a time. *)
Ltac step_body :=
  unfold bind, get_self, modify_self, cleanup, refresh, ret, raise, lift,
    py_assert, new_Renderable, get_terminal_sizes, emit, with_self;
  cbn [self trace n_queries next_rid fst snd].

Lemma live_app (t u : list Event) :
  live (t ++ u) = fold_left live_step u (live t).
Proof. unfold live. apply fold_left_app. Qed.

Lemma remove_single (n : nat) : remove Nat.eq_dec n [n] = [].
Proof. cbn. destruct (Nat.eq_dec n n); [reflexivity | contradiction]. Qed.

Lemma count_queries_app (t u : list Event) :
  count_queries (t ++ u) = (count_queries t + count_queries u)%nat.
Proof. unfold count_queries. rewrite filter_app, length_app. reflexivity. Qed.

Section WidgetProperties.

Context {TerminalSizes : Type}.
Variable terminal_answer : nat -> TerminalSizes.
Variable get_cell_size :
  ImageSize.t -> Z -> Z -> TerminalSizes -> Outcome (Z * Z).
Variable PixelMeta : ImageValue -> Outcome PixelMetaT.

(** The world an assignment to [image] leaves: the setter returns once
    the size to cache is known, and raises what [PixelMeta] raised, with
    the value stored and the cache as it was, before any refresh. *)
Lemma image_setter_run (value : ImageValue) (w : World) :
  image_setter PixelMeta value w =
  match pixel_size_of PixelMeta value with
  | Returns pixel_meta =>
      (Returns tt,
       {| self :=
            {| _renderable := None;
               _image := value;
               _image_width := pm_width pixel_meta;
               _image_height := pm_height pixel_meta;
               styles := styles (self w);
               content_size := content_size (self w) |};
          n_queries := n_queries w;
          next_rid := next_rid w;
          trace := trace w ++ cleanup_events (self w) ++ [EvRefresh] |})
  | Raises e =>
      (Raises e,
       {| self :=
            {| _renderable := None;
               _image := value;
               _image_width := _image_width (self w);
               _image_height := _image_height (self w);
               styles := styles (self w);
               content_size := content_size (self w) |};
          n_queries := n_queries w;
          next_rid := next_rid w;
          trace := trace w ++ cleanup_events (self w) |})
  end.
Proof.
  unfold image_setter, pixel_size_of, cleanup_events. step_body.
  destruct w as [[r im iw ih st cs] q n t]; cbn.
  destruct r as [r|]; destruct (truthy value); cbn;
    try destruct (PixelMeta value) as [pixel_meta | e]; cbn;
    rewrite <- ?app_assoc, ?app_nil_r; reflexivity.
Qed.

(** What every assignment leaves, returned or raised. *)
Lemma image_setter_world (value : ImageValue) (w : World) :
  let w' := snd (image_setter PixelMeta value w) in
  _renderable (self w') = None
  /\ _image (self w') = value
  /\ styles (self w') = styles (self w)
  /\ content_size (self w') = content_size (self w)
  /\ n_queries w' = n_queries w
  /\ next_rid w' = next_rid w
  /\ (truthy value = false -> _image_width (self w') = 0 /\ _image_height (self w') = 0)
  /\ exists refreshes,
      trace w' = trace w ++ cleanup_events (self w) ++ refreshes
      /\ (refreshes = [] \/ refreshes = [EvRefresh]).
Proof.
  cbv zeta. rewrite image_setter_run. unfold pixel_size_of.
  destruct (truthy value) eqn:Hv.
  - destruct (PixelMeta value) as [pm | e]; cbn;
      repeat (split; [reflexivity || discriminate |]).
    + exists [EvRefresh]. auto.
    + exists []. rewrite app_nil_r. auto.
  - cbn. repeat (split; [reflexivity || (intros _; split; reflexivity) |]).
    exists [EvRefresh]. auto.
Qed.

(** [render] on a falsy image stops at the assertion, before anything
    else happens. *)
Lemma render_falsy (w : World) :
  truthy (_image (self w)) = false ->
  render w = (Raises AssertionError, w).
Proof.
  intros H. unfold render. step_body. rewrite H. reflexivity.
Qed.

(** The world a [render] on a truthy image leaves. *)
Lemma render_run (w : World) :
  truthy (_image (self w)) = true ->
  let r := {| rid := next_rid w;
              r_image := _image (self w);
              r_width := fst (_get_styled_size (self w));
              r_height := snd (_get_styled_size (self w)) |} in
  render w =
  (Returns r,
   {| self := set_renderable (Some r) (self w);
      n_queries := n_queries w;
      next_rid := S (next_rid w);
      trace := trace w ++ cleanup_events (self w) ++ [EvNewRenderable r] |}).
Proof.
  intros H. unfold render, cleanup_events. step_body. rewrite H.
  destruct w as [[r im iw ih st cs] q n t]; cbn.
  destruct r as [r|]; cbn; rewrite <- ?app_assoc; reflexivity.
Qed.

Lemma get_content_width_run (container viewport : Size.t) (w : World) :
  get_content_width terminal_answer get_cell_size container viewport w =
  (outcome_map fst
     (get_cell_size
        (ImageSize.mk (_image_width (self w)) (_image_height (self w))
           (fst (_get_styled_size (self w))) (snd (_get_styled_size (self w))))
        (Size.width container) (Size.height container)
        (terminal_answer (n_queries w))),
   {| self := self w; n_queries := S (n_queries w); next_rid := next_rid w;
      trace := trace w ++ [EvGetTerminalSizes] |}).
Proof.
  unfold get_content_width. step_body.
  destruct (_get_styled_size (self w)) as [sw sh]; cbn.
  destruct (get_cell_size _ _ _ _) as [[wd ht]|e]; reflexivity.
Qed.

Lemma get_content_height_run (container viewport : Size.t) (width : Z)
  (w : World) :
  get_content_height terminal_answer get_cell_size container viewport width w =
  (outcome_map snd
     (get_cell_size
        (ImageSize.mk (_image_width (self w)) (_image_height (self w))
           (fst (_get_styled_size (self w))) (snd (_get_styled_size (self w))))
        width (Size.height container)
        (terminal_answer (n_queries w))),
   {| self := self w; n_queries := S (n_queries w); next_rid := next_rid w;
      trace := trace w ++ [EvGetTerminalSizes] |}).
Proof.
  unfold get_content_height. step_body.
  destruct (_get_styled_size (self w)) as [sw sh]; cbn.
  destruct (get_cell_size _ _ _ _) as [[wd ht]|e]; reflexivity.
Qed.

(** *** What holds in every reachable world *)

Lemma image_setter_invariant (value : ImageValue) (w : World) :
  no_leak w -> ids_below_next w ->
  invariant (snd (image_setter PixelMeta value w)).
Proof.
  intros Hleak Hids.
  pose proof (image_setter_world value w) as H. cbv zeta in H.
  destruct H as (Hr & Hi & _ & _ & _ & Hn & Hzero & refreshes & Ht & Href).
  unfold invariant, consistent, no_leak, ids_below_next in *.
  split; [| split].
  - rewrite Hi. exact Hzero.
  - rewrite Ht, app_assoc, live_app, live_app, Hleak.
    unfold held. rewrite Hr. unfold cleanup_events.
    destruct (_renderable (self w)) as [r|]; cbn.
    + destruct (Nat.eq_dec (rid r) (rid r)); [| contradiction].
      destruct Href as [-> | ->]; reflexivity.
    + destruct Href as [-> | ->]; reflexivity.
  - intros r Hin. rewrite Hn. rewrite Ht in Hin.
    apply in_app_or in Hin as [Hin | Hin]; [auto |].
    apply in_app_or in Hin as [Hin | Hin].
    + unfold cleanup_events in Hin.
      destruct (_renderable (self w));
        [destruct Hin as [Hin | []]; discriminate Hin | destruct Hin].
    + destruct Href as [-> | ->]; [destruct Hin |].
      destruct Hin as [Hin | []]. discriminate Hin.
Qed.

Lemma init_invariant (i : Image) (image : ImageValue) :
  invariant (snd (__init__ PixelMeta image (blank i))).
Proof.
  unfold __init__. step_body.
  apply (image_setter_invariant image
           {| self := set_renderable None i; n_queries := 0; next_rid := 0;
              trace := [] |}).
  - reflexivity.
  - intros r [].
Qed.

Lemma render_invariant (w : World) :
  invariant w -> invariant (snd (render w)).
Proof.
  intros Hinv. destruct (truthy (_image (self w))) eqn:Himg.
  2: { rewrite render_falsy by assumption. exact Hinv. }
  destruct Hinv as (Hcons & Hleak & Hids).
  rewrite (render_run w Himg).
  unfold invariant, consistent, no_leak, ids_below_next in *.
  cbn [snd self trace next_rid set_renderable _image _image_width _image_height].
  repeat split.
  - apply Hcons; assumption.
  - apply Hcons; assumption.
  - rewrite app_assoc, live_app, live_app, Hleak.
    unfold held, cleanup_events.
    destruct (_renderable (self w)) as [r|]; cbn; [| reflexivity].
    destruct (Nat.eq_dec (rid r) (rid r)); [reflexivity | contradiction].
  - intros r Hin. apply in_app_or in Hin as [Hin | Hin].
    + apply Hids in Hin. lia.
    + apply in_app_or in Hin as [Hin | [Hin | []]].
      * unfold cleanup_events in Hin.
        destruct (_renderable (self w)); [destruct Hin as [Hin | []]; discriminate Hin | destruct Hin].
      * injection Hin as <-. cbn. lia.
Qed.

Lemma query_invariant (w : World) :
  invariant w ->
  invariant {| self := self w; n_queries := S (n_queries w);
               next_rid := next_rid w;
               trace := trace w ++ [EvGetTerminalSizes] |}.
Proof.
  intros (Hcons & Hleak & Hids).
  unfold invariant, no_leak, ids_below_next in *. cbn [self trace next_rid].
  split; [exact Hcons | split].
  - rewrite live_app, Hleak. reflexivity.
  - intros r Hin. apply in_app_or in Hin as [Hin | [Hin | []]];
      [auto | discriminate Hin].
Qed.

Lemma run_call_invariant (c : Call) (w : World) :
  invariant w ->
  invariant (run_call terminal_answer get_cell_size PixelMeta c w).
Proof.
  intros Hinv. destruct c; cbn [run_call].
  - destruct Hinv as (_ & Hleak & Hids).
    apply image_setter_invariant; assumption.
  - apply render_invariant; assumption.
  - rewrite get_content_width_run. apply query_invariant; assumption.
  - rewrite get_content_height_run. apply query_invariant; assumption.
  - exact Hinv.
Qed.

Lemma Reachable_invariant (w : World) :
  Reachable terminal_answer get_cell_size PixelMeta w -> invariant w.
Proof.
  induction 1 as [i image | w c _ IH].
  - apply init_invariant.
  - apply run_call_invariant; assumption.
Qed.

(** *** The measuring methods *)

(** C8: each measuring call queries the terminal-metrics provider exactly
    once and touches nothing else.  [get_content_width] returns the
    first component of [get_cell_size] called with the container's width
    and height as bounds; [get_content_height] returns the second
    component of [get_cell_size] called with the already resolved
    [width] in place of the container's width.  Both pass the metrics
    that the one query answered, and an exception of [get_cell_size]
    passes through. *)
Theorem measuring_queries_metrics_once
  (container viewport : Size.t) (width : Z) (w : World) :
  let size :=
    ImageSize.mk (_image_width (self w)) (_image_height (self w))
      (_get_styled_dimension (self w) (styles (self w)) dim_width)
      (_get_styled_dimension (self w) (styles (self w)) dim_height) in
  let metrics := terminal_answer (n_queries w) in
  let by_width :=
    get_content_width terminal_answer get_cell_size container viewport w in
  let by_height :=
    get_content_height terminal_answer get_cell_size container viewport width w in
  fst by_width =
    outcome_map fst
      (get_cell_size size (Size.width container) (Size.height container) metrics)
  /\ fst by_height =
    outcome_map snd (get_cell_size size width (Size.height container) metrics)
  /\ (forall w', w' = snd by_width \/ w' = snd by_height ->
      trace w' = trace w ++ [EvGetTerminalSizes]
      /\ count_queries (trace w') = S (count_queries (trace w))
      /\ n_queries w' = S (n_queries w)
      /\ self w' = self w
      /\ next_rid w' = next_rid w).
Proof.
  cbv zeta. rewrite get_content_width_run, get_content_height_run.
  cbn [fst snd _get_styled_size].
  split; [reflexivity | split; [reflexivity |]].
  intros w' [-> | ->]; cbn [trace n_queries self next_rid];
    rewrite count_queries_app; cbn; repeat split; lia.
Qed.

(** *** Assigning the image *)

(** C9, as the code has it: every assignment to [image] first calls
    [cleanup()] on the renderable the widget holds, if there is one,
    leaves [_renderable] at [None] and stores the value.  For a falsy
    value it then caches 0 and 0 and asks for a refresh.  For a truthy
    value it calls [PixelMeta(value)]: if that returns, its pixel width
    and height are cached and a refresh is asked for; if that raises, the
    exception leaves the setter with the cache as it was and without a
    refresh.  Styles, layout and the counters are untouched, and if the
    held renderable was the only live one, none is live afterwards,
    whether the assignment returned or raised. *)
Theorem image_assignment (value : ImageValue) (w : World) :
  exists outcome w',
    image_setter PixelMeta value w = (outcome, w')
    /\ _renderable (self w') = None
    /\ _image (self w') = value
    /\ styles (self w') = styles (self w)
    /\ content_size (self w') = content_size (self w)
    /\ n_queries w' = n_queries w
    /\ next_rid w' = next_rid w
    /\ (no_leak w -> live (trace w') = [])
    /\ (truthy value = false ->
        outcome = Returns tt
        /\ _image_width (self w') = 0
        /\ _image_height (self w') = 0
        /\ trace w' = trace w ++ cleanup_events (self w) ++ [EvRefresh])
    /\ (forall pixel_meta,
          truthy value = true -> PixelMeta value = Returns pixel_meta ->
          outcome = Returns tt
          /\ _image_width (self w') = pm_width pixel_meta
          /\ _image_height (self w') = pm_height pixel_meta
          /\ trace w' = trace w ++ cleanup_events (self w) ++ [EvRefresh])
    /\ (forall e,
          truthy value = true -> PixelMeta value = Raises e ->
          outcome = Raises e
          /\ _image_width (self w') = _image_width (self w)
          /\ _image_height (self w') = _image_height (self w)
          /\ trace w' = trace w ++ cleanup_events (self w)).
Proof.
  exists (fst (image_setter PixelMeta value w)),
    (snd (image_setter PixelMeta value w)).
  split; [apply surjective_pairing |].
  pose proof (image_setter_world value w) as H. cbv zeta in H.
  destruct H as (Hr & Hi & Hs & Hc & Hq & Hn & _ & refreshes & Ht & Href).
  do 6 (split; [assumption |]).
  split.
  { intros Hleak. unfold no_leak in Hleak.
    rewrite Ht, app_assoc, live_app, live_app, Hleak.
    unfold held, cleanup_events.
    destruct (_renderable (self w)) as [r|]; cbn.
    - destruct (Nat.eq_dec (rid r) (rid r)); [| contradiction].
      destruct Href as [-> | ->]; reflexivity.
    - destruct Href as [-> | ->]; reflexivity. }
  rewrite image_setter_run. unfold pixel_size_of.
  split; [| split].
  - intros Hv. rewrite Hv. cbn. repeat split.
  - intros pixel_meta Hv Hpm. rewrite Hv, Hpm. cbn. repeat split.
  - intros e Hv He. rewrite Hv, He. cbn. repeat split.
Qed.

(** *** Rendering *)

(** With no image the resolver is given pixel dimensions 0 and 0, and a
    resolver that answers (0, 0) there makes the widget report 0. *)
Lemma nonzero_size_needs_image (w : World) :
  (forall width height max_width max_height metrics,
      get_cell_size (ImageSize.mk 0 0 width height) max_width max_height metrics
      = Returns (0, 0)) ->
  consistent (self w) ->
  reports_nonzero_size terminal_answer get_cell_size w ->
  truthy (_image (self w)) = true.
Proof.
  intros Hzero Hcons Hsize.
  destruct (truthy (_image (self w))) eqn:Himg; [reflexivity | exfalso].
  destruct (Hcons Himg) as [Hw Hh].
  destruct Hsize as [(container & viewport & n & Hret & Hn)
                    | (container & viewport & width & n & Hret & Hn)].
  - rewrite get_content_width_run in Hret. cbn [fst] in Hret.
    rewrite Hw, Hh, Hzero in Hret. cbn in Hret. congruence.
  - rewrite get_content_height_run in Hret. cbn [fst] in Hret.
    rewrite Hw, Hh, Hzero in Hret. cbn in Hret. congruence.
Qed.

(** C10: [render] asserts that an image is set.  In a reachable world in
    which the widget reports a nonzero size, given a resolver that sizes
    the absent image (pixel dimensions 0 and 0) as (0, 0), the image is
    truthy and the assertion holds: [render] returns.  It calls
    [cleanup()] on the renderable held before, if any, and only then
    builds a new renderable from the image and the current styled size;
    that renderable is none of those built earlier, the widget holds it,
    it is returned, and it is the only live one. *)
Theorem render_when_sized (w : World) :
  (forall width height max_width max_height metrics,
      get_cell_size (ImageSize.mk 0 0 width height) max_width max_height metrics
      = Returns (0, 0)) ->
  Reachable terminal_answer get_cell_size PixelMeta w ->
  reports_nonzero_size terminal_answer get_cell_size w ->
  exists r w',
    render w = (Returns r, w')
    /\ truthy (_image (self w)) = true
    /\ r_image r = _image (self w)
    /\ (r_width r, r_height r) = _get_styled_size (self w)
    /\ trace w' = trace w ++ cleanup_events (self w) ++ [EvNewRenderable r]
    /\ (forall old, In (EvNewRenderable old) (trace w) -> rid old <> rid r)
    /\ _renderable (self w') = Some r
    /\ live (trace w') = [rid r].
Proof.
  intros Hzero Hreach Hsize.
  pose proof (Reachable_invariant w Hreach) as Hinv.
  pose proof (render_invariant w Hinv) as (_ & Hleak' & _).
  destruct Hinv as (Hcons & Hleak & Hids).
  pose proof (nonzero_size_needs_image w Hzero Hcons Hsize) as Himg.
  pose proof (render_run w Himg) as Hrun. cbv zeta in Hrun.
  unfold no_leak in Hleak'. rewrite Hrun in Hleak'. cbn in Hleak'.
  eexists _, _. split; [exact Hrun |].
  cbn [self trace r_image r_width r_height rid set_renderable _renderable].
  split; [exact Himg |]. split; [reflexivity |].
  split; [destruct (_get_styled_size (self w)); reflexivity |].
  split; [reflexivity |].
  split; [intros old Hin; apply Hids in Hin; lia |].
  split; [reflexivity | exact Hleak'].
Qed.

End WidgetProperties.

(** * Properties of the specified resolver *)

Import CellSizeResolver.

(** ** Ceiling division *)

Lemma valid_metrics_positive (terminalMetrics : TerminalCellMetrics) :
  invalid_metrics terminalMetrics = false ->
  (0 < cellPixelWidth terminalMetrics /\ 0 < cellPixelHeight terminalMetrics)%Q.
Proof.
  unfold invalid_metrics. intros H.
  apply orb_false_elim in H as [Hw Hh].
  split; apply Qnot_le_lt; intros Hle; apply Qle_bool_iff in Hle; congruence.
Qed.

Lemma div_mult_cancel (p c : Q) : (0 < c)%Q -> (p / c * c == p)%Q.
Proof.
  intros Hc. rewrite Qmult_comm. apply Qmult_div_r.
  intros Heq. rewrite Heq in Hc. discriminate Hc.
Qed.

(** [cellsNeeded p c] is the least number of cells of size [c] that cover
    [p] pixels. *)
Lemma cellsNeeded_least (p c : Q) (k : Z) :
  (0 < c)%Q ->
  cellsNeeded p c <= k <-> (p <= inject_Z k * c)%Q.
Proof.
  intros Hc. unfold cellsNeeded. split; intros H.
  - rewrite <- (div_mult_cancel p c Hc).
    apply Qmult_le_compat_r; [| apply Qlt_le_weak; assumption].
    apply Qle_trans with (inject_Z (Qceiling (p / c))); [apply Qle_ceiling |].
    rewrite <- Zle_Qle. assumption.
  - rewrite <- (Qceiling_Z k). apply Qceiling_resp_le.
    apply Qle_shift_div_r; assumption.
Qed.

Lemma cellsNeeded_covers (p c : Q) :
  (0 < c)%Q ->
  (p <= inject_Z (cellsNeeded p c) * c
   /\ inject_Z (cellsNeeded p c) * c < p + c)%Q.
Proof.
  intros Hc. split.
  - apply cellsNeeded_least; [assumption | apply Z.le_refl].
  - unfold cellsNeeded.
    pose proof (Qceiling_lt (p / c)) as Hlt.
    apply (Qmult_lt_r _ _ c Hc) in Hlt.
    rewrite div_mult_cancel in Hlt by assumption.
    unfold Z.sub in Hlt. rewrite inject_Z_plus in Hlt.
    apply Qlt_minus_iff. apply Qlt_minus_iff in Hlt.
    setoid_replace (p + c + - (inject_Z (Qceiling (p / c)) * c))%Q
      with (p + - ((inject_Z (Qceiling (p / c)) + inject_Z (-1)) * c))%Q
      by (simpl; ring).
    assumption.
Qed.

Lemma cellsNeeded_nonneg (p c : Q) :
  (0 <= p)%Q -> (0 < c)%Q -> 0 <= cellsNeeded p c.
Proof.
  intros Hp Hc. unfold cellsNeeded.
  change 0 with (Qceiling (inject_Z 0)).
  apply Qceiling_resp_le. apply Qle_shift_div_l; [assumption |].
  rewrite Qmult_0_l. assumption.
Qed.

Lemma derivedPixels_nonneg (otherPixels n fixedPixels : Z) (cellPixels : Q) :
  0 <= otherPixels -> 0 <= n -> 0 < fixedPixels -> (0 < cellPixels)%Q ->
  (0 <= derivedPixels otherPixels n cellPixels fixedPixels)%Q.
Proof.
  intros Ho Hn Hf Hc. unfold derivedPixels.
  apply Qmult_le_0_compat; [rewrite Zle_Qle in Ho; exact Ho |].
  apply Qle_shift_div_l; [rewrite Zlt_Qlt in Hf; exact Hf |].
  rewrite Qmult_0_l. apply Qmult_le_0_compat;
    [rewrite Zle_Qle in Hn; exact Hn | apply Qlt_le_weak; assumption].
Qed.

(** ** The resolver case by case *)

Lemma resolveCellSize_no_image (imageSize : ImageSize.t) (container : Size.t)
  (terminalMetrics : TerminalCellMetrics) :
  ImageSize.pixelWidth imageSize = 0 \/ ImageSize.pixelHeight imageSize = 0 ->
  resolveCellSize imageSize container terminalMetrics = Returns (0, 0).
Proof.
  intros H. unfold resolveCellSize.
  replace ((ImageSize.pixelWidth imageSize =? 0)
           || (ImageSize.pixelHeight imageSize =? 0))%bool with true;
    [reflexivity |].
  symmetry. apply orb_true_iff.
  destruct H as [H | H]; [left | right]; apply Z.eqb_eq; assumption.
Qed.

Lemma resolveCellSize_raw (imageSize : ImageSize.t) (container : Size.t)
  (terminalMetrics : TerminalCellMetrics) :
  ImageSize.pixelWidth imageSize <> 0 ->
  ImageSize.pixelHeight imageSize <> 0 ->
  invalid_metrics terminalMetrics = false ->
  resolveCellSize imageSize container terminalMetrics =
  Returns (clamp (fst (rawCellSize imageSize terminalMetrics)) (Size.width container),
           clamp (snd (rawCellSize imageSize terminalMetrics)) (Size.height container)).
Proof.
  intros Hw Hh Hm. unfold resolveCellSize.
  apply Z.eqb_neq in Hw, Hh. rewrite Hw, Hh, Hm. cbn [orb].
  destruct (rawCellSize imageSize terminalMetrics); reflexivity.
Qed.

Lemma resolveCellSize_invalid (imageSize : ImageSize.t) (container : Size.t)
  (terminalMetrics : TerminalCellMetrics) :
  ImageSize.pixelWidth imageSize <> 0 ->
  ImageSize.pixelHeight imageSize <> 0 ->
  invalid_metrics terminalMetrics = true ->
  resolveCellSize imageSize container terminalMetrics = Raises InvalidMetrics.
Proof.
  intros Hw Hh Hm. unfold resolveCellSize.
  apply Z.eqb_neq in Hw, Hh. rewrite Hw, Hh, Hm. reflexivity.
Qed.

Lemma rawCellSize_native (imageSize : ImageSize.t)
  (terminalMetrics : TerminalCellMetrics) :
  not_fixed (ImageSize.width imageSize) ->
  not_fixed (ImageSize.height imageSize) ->
  rawCellSize imageSize terminalMetrics =
  (cellsNeeded (inject_Z (ImageSize.pixelWidth imageSize))
     (cellPixelWidth terminalMetrics),
   cellsNeeded (inject_Z (ImageSize.pixelHeight imageSize))
     (cellPixelHeight terminalMetrics)).
Proof.
  unfold rawCellSize. intros [-> | ->] [-> | ->]; reflexivity.
Qed.

Lemma rawCellSize_fixed_width (imageSize : ImageSize.t)
  (terminalMetrics : TerminalCellMetrics) (n : Z) :
  ImageSize.width imageSize = Some (Fixed n) ->
  not_fixed (ImageSize.height imageSize) ->
  rawCellSize imageSize terminalMetrics =
  (n, cellsNeeded
        (derivedPixels (ImageSize.pixelHeight imageSize) n
           (cellPixelWidth terminalMetrics) (ImageSize.pixelWidth imageSize))
        (cellPixelHeight terminalMetrics)).
Proof.
  unfold rawCellSize. intros -> [-> | ->]; reflexivity.
Qed.

Lemma rawCellSize_fixed_height (imageSize : ImageSize.t)
  (terminalMetrics : TerminalCellMetrics) (m : Z) :
  not_fixed (ImageSize.width imageSize) ->
  ImageSize.height imageSize = Some (Fixed m) ->
  rawCellSize imageSize terminalMetrics =
  (cellsNeeded
     (derivedPixels (ImageSize.pixelWidth imageSize) m
        (cellPixelHeight terminalMetrics) (ImageSize.pixelHeight imageSize))
     (cellPixelWidth terminalMetrics), m).
Proof.
  unfold rawCellSize. intros [-> | ->] ->; reflexivity.
Qed.

Lemma rawCellSize_both_fixed (imageSize : ImageSize.t)
  (terminalMetrics : TerminalCellMetrics) (n m : Z) :
  ImageSize.width imageSize = Some (Fixed n) ->
  ImageSize.height imageSize = Some (Fixed m) ->
  rawCellSize imageSize terminalMetrics = (n, m).
Proof.
  unfold rawCellSize. intros -> ->. reflexivity.
Qed.

(** Before clamping no count is negative. *)
Lemma rawCellSize_nonneg (imageSize : ImageSize.t) (container : Size.t)
  (terminalMetrics : TerminalCellMetrics) :
  unsigned_inputs imageSize container ->
  ImageSize.pixelWidth imageSize <> 0 ->
  ImageSize.pixelHeight imageSize <> 0 ->
  invalid_metrics terminalMetrics = false ->
  0 <= fst (rawCellSize imageSize terminalMetrics)
  /\ 0 <= snd (rawCellSize imageSize terminalMetrics).
Proof.
  intros (Hpw & Hph & Hrw & Hrh & _ & _) Hw Hh Hm.
  apply valid_metrics_positive in Hm as [Hcw Hch].
  assert (Hpw' : 0 < ImageSize.pixelWidth imageSize) by lia.
  assert (Hph' : 0 < ImageSize.pixelHeight imageSize) by lia.
  assert (Hqw : (0 <= inject_Z (ImageSize.pixelWidth imageSize))%Q)
    by (rewrite Zle_Qle in Hpw; exact Hpw).
  assert (Hqh : (0 <= inject_Z (ImageSize.pixelHeight imageSize))%Q)
    by (rewrite Zle_Qle in Hph; exact Hph).
  unfold rawCellSize, unsigned_dimension in *.
  destruct (ImageSize.width imageSize) as [[|n]|];
    destruct (ImageSize.height imageSize) as [[|m]|]; cbn [fst snd];
    try specialize (Hrw _ eq_refl); try specialize (Hrh _ eq_refl);
    split; try assumption;
    apply cellsNeeded_nonneg; try assumption;
    apply derivedPixels_nonneg; assumption.
Qed.

(** ** The claims about the resolver *)

(** C1: for an image with positive pixel width and height and valid
    metrics, when both requested dimensions are unset, and likewise when
    both are Auto, the resolver returns on each axis
    [ceil(pixelDimension / cellPixelDimension)] clamped to the container
    bound; that count is the least number of cells covering the pixel
    dimension. *)
Theorem native_resolution_size (imageSize : ImageSize.t) (container : Size.t)
  (terminalMetrics : TerminalCellMetrics) :
  0 < ImageSize.pixelWidth imageSize ->
  0 < ImageSize.pixelHeight imageSize ->
  invalid_metrics terminalMetrics = false ->
  (ImageSize.width imageSize = None /\ ImageSize.height imageSize = None)
  \/ (ImageSize.width imageSize = Some Auto
      /\ ImageSize.height imageSize = Some Auto) ->
  let w := cellsNeeded (inject_Z (ImageSize.pixelWidth imageSize))
             (cellPixelWidth terminalMetrics) in
  let h := cellsNeeded (inject_Z (ImageSize.pixelHeight imageSize))
             (cellPixelHeight terminalMetrics) in
  resolveCellSize imageSize container terminalMetrics =
    Returns (Z.min w (Size.width container), Z.min h (Size.height container))
  /\ (forall k, w <= k <->
        (inject_Z (ImageSize.pixelWidth imageSize)
         <= inject_Z k * cellPixelWidth terminalMetrics)%Q)
  /\ (forall k, h <= k <->
        (inject_Z (ImageSize.pixelHeight imageSize)
         <= inject_Z k * cellPixelHeight terminalMetrics)%Q).
Proof.
  intros Hpw Hph Hm Hreq. cbv zeta.
  destruct (valid_metrics_positive _ Hm) as [Hcw Hch].
  split; [| split; intros k; apply cellsNeeded_least; assumption].
  rewrite resolveCellSize_raw by (assumption || lia).
  rewrite rawCellSize_native; [reflexivity | |];
    destruct Hreq as [[Hw Hh] | [Hw Hh]]; unfold not_fixed; auto.
Qed.

(** The scenario of C1: 800x400 pixels, 10x20 cells, container (100, 100),
    both dimensions unset or both Auto: (80, 20). *)
Lemma native_resolution_scenario :
  resolveCellSize (scenario_image None None) (Size.mk 100 100) scenario_metrics
  = Returns (80, 20)
  /\ resolveCellSize (scenario_image (Some Auto) (Some Auto)) (Size.mk 100 100)
       scenario_metrics
     = Returns (80, 20).
Proof.
  split.
  - apply (native_resolution_size (scenario_image None None) (Size.mk 100 100)
             scenario_metrics); [reflexivity | reflexivity | reflexivity |].
    left. split; reflexivity.
  - apply (native_resolution_size (scenario_image (Some Auto) (Some Auto))
             (Size.mk 100 100) scenario_metrics);
      [reflexivity | reflexivity | reflexivity |].
    right. split; reflexivity.
Defined.

(** The derived count overshoots the aspect-true pixel length by less than
    one cell. *)
Lemma derived_error_below_one_cell (derived c : Q) :
  (0 < c)%Q ->
  (0 <= inject_Z (cellsNeeded derived c) * c - derived
   /\ inject_Z (cellsNeeded derived c) * c - derived < c)%Q.
Proof.
  intros Hc. destruct (cellsNeeded_covers derived c Hc) as [Hle Hlt].
  split.
  - apply Qle_minus_iff in Hle. exact Hle.
  - apply Qlt_minus_iff in Hlt. apply Qlt_minus_iff.
    setoid_replace (c + - (inject_Z (cellsNeeded derived c) * c - derived))%Q
      with (derived + c + - (inject_Z (cellsNeeded derived c) * c))%Q by ring.
    exact Hlt.
Qed.

Lemma error_within_one_cell (e c : Q) :
  (0 <= e)%Q -> (e < c)%Q -> (Qabs e < c)%Q.
Proof. intros H0 Hlt. rewrite Qabs_pos; assumption. Qed.

(** C2, as the resolver has it: for an image with positive pixel
    dimensions and valid metrics, when exactly one dimension is Fixed(n)
    and the other is unset or Auto, the fixed axis is n and the other is
    the ceiling division of the pixel length that keeps the image's aspect
    ratio, each clamped to its container bound.  The derived count
    overshoots the aspect-true length by less than one cell, so a result
    that the clamp leaves alone is within one cell of the image's ratio. *)
Theorem one_fixed_dimension (imageSize : ImageSize.t) (container : Size.t)
  (terminalMetrics : TerminalCellMetrics) (n : Z) :
  0 < ImageSize.pixelWidth imageSize ->
  0 < ImageSize.pixelHeight imageSize ->
  invalid_metrics terminalMetrics = false ->
  (ImageSize.width imageSize = Some (Fixed n) ->
   not_fixed (ImageSize.height imageSize) ->
   let h := cellsNeeded
              (derivedPixels (ImageSize.pixelHeight imageSize) n
                 (cellPixelWidth terminalMetrics) (ImageSize.pixelWidth imageSize))
              (cellPixelHeight terminalMetrics) in
   resolveCellSize imageSize container terminalMetrics =
     Returns (Z.min n (Size.width container), Z.min h (Size.height container))
   /\ (0 <= heightError imageSize terminalMetrics n h)%Q
   /\ (heightError imageSize terminalMetrics n h
       < cellPixelHeight terminalMetrics)%Q
   /\ (n <= Size.width container -> h <= Size.height container ->
       resolveCellSize imageSize container terminalMetrics = Returns (n, h)
       /\ heightWithinOneCell imageSize terminalMetrics n h))
  /\
  (ImageSize.height imageSize = Some (Fixed n) ->
   not_fixed (ImageSize.width imageSize) ->
   let w := cellsNeeded
              (derivedPixels (ImageSize.pixelWidth imageSize) n
                 (cellPixelHeight terminalMetrics) (ImageSize.pixelHeight imageSize))
              (cellPixelWidth terminalMetrics) in
   resolveCellSize imageSize container terminalMetrics =
     Returns (Z.min w (Size.width container), Z.min n (Size.height container))
   /\ (0 <= widthError imageSize terminalMetrics w n)%Q
   /\ (widthError imageSize terminalMetrics w n
       < cellPixelWidth terminalMetrics)%Q
   /\ (w <= Size.width container -> n <= Size.height container ->
       resolveCellSize imageSize container terminalMetrics = Returns (w, n)
       /\ widthWithinOneCell imageSize terminalMetrics w n)).
Proof.
  intros Hpw Hph Hm.
  destruct (valid_metrics_positive _ Hm) as [Hcw Hch].
  split; intros Hfix Hother; cbv zeta.
  - destruct (derived_error_below_one_cell
                (derivedPixels (ImageSize.pixelHeight imageSize) n
                   (cellPixelWidth terminalMetrics)
                   (ImageSize.pixelWidth imageSize))
                (cellPixelHeight terminalMetrics) Hch) as [H0 H1].
    assert (Hres : resolveCellSize imageSize container terminalMetrics =
                   Returns (Z.min n (Size.width container),
                            Z.min (cellsNeeded
                                     (derivedPixels (ImageSize.pixelHeight imageSize) n
                                        (cellPixelWidth terminalMetrics)
                                        (ImageSize.pixelWidth imageSize))
                                     (cellPixelHeight terminalMetrics))
                              (Size.height container))).
    { rewrite resolveCellSize_raw by (assumption || lia).
      rewrite (rawCellSize_fixed_width _ _ n) by assumption. reflexivity. }
    split; [exact Hres |]. split; [exact H0 |]. split; [exact H1 |].
    intros Hn Hh. split.
    + rewrite Hres, !Z.min_l by assumption. reflexivity.
    + apply error_within_one_cell; assumption.
  - destruct (derived_error_below_one_cell
                (derivedPixels (ImageSize.pixelWidth imageSize) n
                   (cellPixelHeight terminalMetrics)
                   (ImageSize.pixelHeight imageSize))
                (cellPixelWidth terminalMetrics) Hcw) as [H0 H1].
    assert (Hres : resolveCellSize imageSize container terminalMetrics =
                   Returns (Z.min (cellsNeeded
                                     (derivedPixels (ImageSize.pixelWidth imageSize) n
                                        (cellPixelHeight terminalMetrics)
                                        (ImageSize.pixelHeight imageSize))
                                     (cellPixelWidth terminalMetrics))
                              (Size.width container),
                            Z.min n (Size.height container))).
    { rewrite resolveCellSize_raw by (assumption || lia).
      rewrite (rawCellSize_fixed_height _ _ n) by assumption. reflexivity. }
    split; [exact Hres |]. split; [exact H0 |]. split; [exact H1 |].
    intros Hw Hn. split.
    + rewrite Hres, !Z.min_l by assumption. reflexivity.
    + apply error_within_one_cell; assumption.
Qed.

(** The scenario of C2: the same image with width Fixed(40) and the height
    unset, container (100, 100): (40, 10), within one cell of the ratio. *)
Lemma one_fixed_dimension_scenario :
  resolveCellSize (scenario_image (Some (Fixed 40)) None) (Size.mk 100 100)
    scenario_metrics
  = Returns (40, 10)
  /\ heightWithinOneCell (scenario_image (Some (Fixed 40)) None)
       scenario_metrics 40 10.
Proof.
  destruct (one_fixed_dimension (scenario_image (Some (Fixed 40)) None)
              (Size.mk 100 100) scenario_metrics 40)
    as [Hwidth _]; [reflexivity | reflexivity | reflexivity |].
  destruct Hwidth as (_ & _ & _ & Hfree); [reflexivity | left; reflexivity |].
  apply Hfree; vm_compute; discriminate.
Defined.

(** Where C2 fails as stated: in a container 5 cells high the derived
    height 10 is clamped to 5, and 5 cells are 100 pixels short of the
    200 that keep the ratio at 40 cells of width; one cell is 20 pixels. *)
Lemma clamp_breaks_aspect :
  resolveCellSize (scenario_image (Some (Fixed 40)) None) (Size.mk 100 5)
    scenario_metrics
  = Returns (40, 5)
  /\ ~ heightWithinOneCell (scenario_image (Some (Fixed 40)) None)
         scenario_metrics 40 5.
Proof.
  split; [reflexivity |].
  unfold heightWithinOneCell. intros H. vm_compute in H. discriminate H.
Qed.

(** C3: whatever the resolver returns lies within the container on both
    axes and is not negative, so a container bound of 0 forces 0 on that
    axis; and with valid metrics it does return a pair.  Pixel sizes,
    Fixed counts and container bounds are unsigned, as the specification
    types them. *)
Theorem output_within_container (imageSize : ImageSize.t) (container : Size.t)
  (terminalMetrics : TerminalCellMetrics) :
  unsigned_inputs imageSize container ->
  (forall w h,
      resolveCellSize imageSize container terminalMetrics = Returns (w, h) ->
      0 <= w <= Size.width container
      /\ 0 <= h <= Size.height container
      /\ (Size.width container = 0 -> w = 0)
      /\ (Size.height container = 0 -> h = 0))
  /\ (invalid_metrics terminalMetrics = false ->
      exists w h,
        resolveCellSize imageSize container terminalMetrics = Returns (w, h)).
Proof.
  intros Hin.
  assert (Hbounds : 0 <= Size.width container /\ 0 <= Size.height container)
    by (destruct Hin as (_ & _ & _ & _ & ? & ?); split; assumption).
  destruct (Z.eq_dec (ImageSize.pixelWidth imageSize) 0) as [Hw | Hw].
  { rewrite resolveCellSize_no_image by (left; assumption).
    split; [| intros _; eauto].
    intros w h [= <- <-]. lia. }
  destruct (Z.eq_dec (ImageSize.pixelHeight imageSize) 0) as [Hh | Hh].
  { rewrite resolveCellSize_no_image by (right; assumption).
    split; [| intros _; eauto].
    intros w h [= <- <-]. lia. }
  destruct (invalid_metrics terminalMetrics) eqn:Hm.
  { rewrite resolveCellSize_invalid by assumption.
    split; [intros w h Hret | intros Hfalse]; discriminate. }
  rewrite resolveCellSize_raw by assumption.
  destruct (rawCellSize_nonneg imageSize container terminalMetrics Hin Hw Hh Hm)
    as [Hrw Hrh].
  split; [| intros _; eauto].
  intros w h [= <- <-]. unfold clamp. lia.
Qed.

(** The scenario of C3: in a container of (10, 10) the raw (80, 20) of the
    800x400 image is clamped to (10, 10). *)
Lemma output_within_container_scenario :
  resolveCellSize (scenario_image None None) (Size.mk 10 10) scenario_metrics
  = Returns (10, 10)
  /\ rawCellSize (scenario_image None None) scenario_metrics = (80, 20)
  /\ (0 <= 10 <= Size.width (Size.mk 10 10)
      /\ 0 <= 10 <= Size.height (Size.mk 10 10)
      /\ (Size.width (Size.mk 10 10) = 0 -> 10 = 0)
      /\ (Size.height (Size.mk 10 10) = 0 -> 10 = 0)).
Proof.
  split; [reflexivity |]. split; [reflexivity |].
  apply (output_within_container (scenario_image None None) (Size.mk 10 10)
           scenario_metrics).
  - unfold unsigned_inputs, unsigned_dimension.
    cbn. repeat split; try lia; intros n Hn; discriminate Hn.
  - reflexivity.
Defined.

(** C5: an image with pixel width 0 or pixel height 0 resolves to (0, 0)
    without an error, whatever the requested dimensions, the container
    bounds and the terminal metrics are. *)
Theorem no_image_is_zero_size (imageSize : ImageSize.t) (container : Size.t)
  (terminalMetrics : TerminalCellMetrics) :
  ImageSize.pixelWidth imageSize = 0 \/ ImageSize.pixelHeight imageSize = 0 ->
  resolveCellSize imageSize container terminalMetrics = Returns (0, 0).
Proof. apply resolveCellSize_no_image. Qed.

(** C5 at a concrete input: no image, a Fixed width, and a terminal that
    reports cells of 0x0 pixels. *)
Lemma no_image_is_zero_size_example :
  resolveCellSize (ImageSize.mk 0 400 (Some (Fixed 40)) None) (Size.mk 100 100)
    {| cellPixelWidth := 0; cellPixelHeight := 0 |}
  = Returns (0, 0).
Proof.
  apply (no_image_is_zero_size (ImageSize.mk 0 400 (Some (Fixed 40)) None)).
  left. reflexivity.
Defined.

(** ** Style resolution *)

Lemma resolveCellSize_both_fixed (imageSize : ImageSize.t) (container : Size.t)
  (terminalMetrics : TerminalCellMetrics) (n m : Z) :
  ImageSize.pixelWidth imageSize <> 0 ->
  ImageSize.pixelHeight imageSize <> 0 ->
  invalid_metrics terminalMetrics = false ->
  ImageSize.width imageSize = Some (Fixed n) ->
  ImageSize.height imageSize = Some (Fixed m) ->
  resolveCellSize imageSize container terminalMetrics =
  Returns (Z.min n (Size.width container), Z.min m (Size.height container)).
Proof.
  intros Hw Hh Hm Hfw Hfh.
  rewrite resolveCellSize_raw by assumption.
  rewrite (rawCellSize_both_fixed _ _ n m) by assumption. reflexivity.
Qed.

(** C6, as the code has it: for a dimension whose style is explicit,
    neither unset nor auto, [_get_styled_dimension] yields Fixed(n) with n
    the widget's current [content_size] on that axis, whatever number and
    unit the style carries; when both requested dimensions are Fixed, the
    resolver, given an image with nonzero pixel dimensions and valid
    metrics, returns both values, each clamped to its container bound; so
    a widget with both styles explicit measures as its content size
    clamped to the bounds it is given. *)
Theorem explicit_style_is_content_size :
  (forall (this : Image) (styles : RenderStyles.t) (dimension : Dimension)
          (style : Scalar.t),
      getattr_styles styles dimension = Some style ->
      is_auto style = false ->
      _get_styled_dimension this styles dimension =
      Some (Fixed (getattr_size (content_size this) dimension)))
  /\ (forall (imageSize : ImageSize.t) (container : Size.t)
             (terminalMetrics : TerminalCellMetrics) (n m : Z),
         ImageSize.pixelWidth imageSize <> 0 ->
         ImageSize.pixelHeight imageSize <> 0 ->
         invalid_metrics terminalMetrics = false ->
         ImageSize.width imageSize = Some (Fixed n) ->
         ImageSize.height imageSize = Some (Fixed m) ->
         resolveCellSize imageSize container terminalMetrics =
         Returns (Z.min n (Size.width container), Z.min m (Size.height container)))
  /\ (forall (terminal_answer : nat -> TerminalCellMetrics) (w : World)
             (container viewport : Size.t) (width : Z)
             (width_style height_style : Scalar.t),
         RenderStyles.width (styles (self w)) = Some width_style ->
         is_auto width_style = false ->
         RenderStyles.height (styles (self w)) = Some height_style ->
         is_auto height_style = false ->
         _image_width (self w) <> 0 ->
         _image_height (self w) <> 0 ->
         invalid_metrics (terminal_answer (n_queries w)) = false ->
         fst (get_content_width terminal_answer CellSizeResolver.get_cell_size
                container viewport w)
         = Returns (Z.min (Size.width (content_size (self w)))
                      (Size.width container))
         /\ fst (get_content_height terminal_answer CellSizeResolver.get_cell_size
                   container viewport width w)
            = Returns (Z.min (Size.height (content_size (self w)))
                         (Size.height container))).
Proof.
  split; [| split].
  - intros this styles dimension style Hstyle Hauto.
    unfold _get_styled_dimension. rewrite Hstyle, Hauto. reflexivity.
  - apply resolveCellSize_both_fixed.
  - intros terminal_answer w container viewport width ws hs Hws Haw Hhs Hah
      Hiw Hih Hm.
    rewrite get_content_width_run, get_content_height_run.
    unfold _get_styled_size, _get_styled_dimension, CellSizeResolver.get_cell_size.
    cbn [fst snd getattr_styles getattr_size]. rewrite Hws, Haw, Hhs, Hah.
    rewrite !(resolveCellSize_both_fixed _ _ _
                (Size.width (content_size (self w)))
                (Size.height (content_size (self w)))) by (assumption || reflexivity).
    split; reflexivity.
Qed.

(** C6 at the example widget, styled [width: 20] with a content area 18
    cells wide: the step yields Fixed(18); and with both dimensions Fixed
    the resolver clamps (40, 30) to the container (100, 25). *)
Lemma explicit_style_is_content_size_example :
  _get_styled_dimension example_widget (styles example_widget) dim_width
  = Some (Fixed 18)
  /\ resolveCellSize (scenario_image (Some (Fixed 40)) (Some (Fixed 30)))
       (Size.mk 100 25) scenario_metrics
     = Returns (40, 25).
Proof.
  destruct explicit_style_is_content_size as (Hstyle & Hfixed & _).
  split.
  - apply (Hstyle example_widget (styles example_widget) dim_width example_style);
      reflexivity.
  - apply (Hfixed (scenario_image (Some (Fixed 40)) (Some (Fixed 30)))
             (Size.mk 100 25) scenario_metrics 40 30);
      try reflexivity; discriminate.
Defined.

(** Where C6 fails as stated: the style asks for 20 cells, the step yields
    Fixed(18), the width of the content area. *)
Lemma explicit_style_not_requested_cells :
  getattr_styles (styles example_widget) dim_width = Some example_style
  /\ is_auto example_style = false
  /\ requested_cells example_style = 20
  /\ _get_styled_dimension example_widget (styles example_widget) dim_width
     = Some (Fixed 18)
  /\ _get_styled_dimension example_widget (styles example_widget) dim_width
     <> Some (Fixed (requested_cells example_style)).
Proof.
  repeat split. discriminate.
Qed.

(** ** Rendering the example widget *)

(** C10 at the example: the widget built by [Image("cat.png")] reports a
    width of 18 cells in a container of (100, 100), and [render] returns a
    renderable. *)
Lemma render_when_sized_example :
  exists r w',
    render example_world = (Returns r, w')
    /\ truthy (_image (self example_world)) = true
    /\ r_image r = _image (self example_world)
    /\ (r_width r, r_height r) = _get_styled_size (self example_world)
    /\ trace w' =
       trace example_world ++ cleanup_events (self example_world)
         ++ [EvNewRenderable r]
    /\ (forall old, In (EvNewRenderable old) (trace example_world) ->
                    rid old <> rid r)
    /\ _renderable (self w') = Some r
    /\ live (trace w') = [rid r].
Proof.
  apply (render_when_sized example_terminal CellSizeResolver.get_cell_size
           example_PixelMeta example_world).
  - intros width height max_width max_height metrics.
    apply resolveCellSize_no_image. left. reflexivity.
  - apply reach_init.
  - left. exists (Size.mk 100 100), (Size.mk 100 100), 18.
    split; [vm_compute; reflexivity | discriminate].
Defined.

(** * Further properties of the widget's code *)

(** [render] with a falsy image raises [AssertionError] at its first
    statement: no cleanup, no renderable, no change to the widget. *)
Theorem render_without_image (w : World) :
  truthy (_image (self w)) = false ->
  render w = (Raises AssertionError, w).
Proof. apply render_falsy. Qed.

Lemma render_without_image_example :
  render (blank example_widget) = (Raises AssertionError, blank example_widget).
Proof. apply (render_without_image (blank example_widget)). reflexivity. Defined.

Section Lifecycle.

Context {TerminalSizes : Type}.
Variable terminal_answer : nat -> TerminalSizes.
Variable get_cell_size :
  ImageSize.t -> Z -> Z -> TerminalSizes -> Outcome (Z * Z).
Variable PixelMeta : ImageValue -> Outcome PixelMetaT.

(** However the widget is used after its construction (assignments to
    [image], renders, measurements, restyling and layout by the host,
    in any order and whether or not a call raised), a falsy image goes
    with cached pixel dimensions 0 and 0, the one renderable the widget
    holds is the only one not yet cleaned up, and every renderable built
    so far has an identity below the next one. *)
Theorem widget_never_leaks_a_renderable (w : World) :
  Reachable terminal_answer get_cell_size PixelMeta w ->
  (truthy (_image (self w)) = false ->
   _image_width (self w) = 0 /\ _image_height (self w) = 0)
  /\ live (trace w) = held (self w)
  /\ (forall r, In (EvNewRenderable r) (trace w) -> (rid r < next_rid w)%nat).
Proof. intros Hreach. apply (Reachable_invariant _ _ _ w Hreach). Qed.

(** With no image set (the last assignment stored a falsy value), both
    measuring methods hand [get_cell_size] the pixel dimensions 0 and 0. *)
Theorem measuring_without_image
  (value : ImageValue) (container viewport : Size.t) (width : Z) (w : World) :
  truthy value = false ->
  let w' := snd (image_setter PixelMeta value w) in
  let size :=
    ImageSize.mk 0 0
      (_get_styled_dimension (self w) (styles (self w)) dim_width)
      (_get_styled_dimension (self w) (styles (self w)) dim_height) in
  fst (get_content_width terminal_answer get_cell_size container viewport w') =
    outcome_map fst
      (get_cell_size size (Size.width container) (Size.height container)
         (terminal_answer (n_queries w)))
  /\ fst (get_content_height terminal_answer get_cell_size container viewport
           width w') =
    outcome_map snd
      (get_cell_size size width (Size.height container)
         (terminal_answer (n_queries w))).
Proof.
  intros Hfalsy. cbv zeta.
  rewrite get_content_width_run, get_content_height_run, image_setter_run.
  unfold pixel_size_of. rewrite Hfalsy. cbn. split; reflexivity.
Qed.

End Lifecycle.

Lemma measuring_without_image_example :
  fst (get_content_width example_terminal CellSizeResolver.get_cell_size
         (Size.mk 100 100) (Size.mk 100 100)
         (snd (image_setter example_PixelMeta None example_world)))
  = Returns 0
  /\ fst (get_content_height example_terminal CellSizeResolver.get_cell_size
            (Size.mk 100 100) (Size.mk 100 100) 0
            (snd (image_setter example_PixelMeta None example_world)))
     = Returns 0.
Proof.
  apply (measuring_without_image example_terminal CellSizeResolver.get_cell_size
           example_PixelMeta None (Size.mk 100 100) (Size.mk 100 100) 0
           example_world).
  reflexivity.
Defined.

(** * The widget over whole runs *)

Lemma audit_app (t u : list Event) :
  audit (t ++ u) = fold_left audit_step u (audit t).
Proof. unfold audit. apply fold_left_app. Qed.

Lemma count_events_app (select : Event -> bool) (t u : list Event) :
  count_events select (t ++ u)
  = (count_events select t + count_events select u)%nat.
Proof. unfold count_events. rewrite filter_app, length_app. reflexivity. Qed.

Lemma truthy_false (value : ImageValue) :
  truthy value = false <-> value = None \/ value = Some (SrcStr EmptyString).
Proof.
  split.
  - destruct value as [[[|c s]|p|h]|]; cbn; intros H;
      try discriminate; auto.
  - intros [-> | ->]; reflexivity.
Qed.

Section Coverage.

Context {TerminalSizes : Type}.
Variable terminal_answer : nat -> TerminalSizes.
Variable get_cell_size :
  ImageSize.t -> Z -> Z -> TerminalSizes -> Outcome (Z * Z).
Variable PixelMeta : ImageValue -> Outcome PixelMetaT.

Local Notation "'run'" := (run_call terminal_answer get_cell_size PixelMeta).
Local Notation "'runs'" := (run_calls terminal_answer get_cell_size PixelMeta).

(** The constructor is an assignment to an object that holds nothing. *)
Lemma created_world (image : ImageValue) (i : Image) :
  created PixelMeta image i =
  snd (image_setter PixelMeta image
         {| self := set_renderable None i; n_queries := 0; next_rid := 0;
            trace := [] |}).
Proof. unfold created, __init__. step_body. reflexivity. Qed.

Lemma run_calls_snoc (calls : list Call) (c : Call) (w : World) :
  runs (calls ++ [c]) w = run c (runs calls w).
Proof. unfold run_calls. rewrite fold_left_app. reflexivity. Qed.

(** Every reachable world is the one some list of calls leaves. *)
Lemma Reachable_runs (w : World) :
  Reachable terminal_answer get_cell_size PixelMeta w <->
  exists i image calls, w = runs calls (created PixelMeta image i).
Proof.
  split.
  - induction 1 as [i image | w c _ (i & image & calls & ->)].
    + exists i, image, []. reflexivity.
    + exists i, image, (calls ++ [c]). rewrite run_calls_snoc. reflexivity.
  - intros (i & image & calls & ->).
    induction calls as [| c calls IH] using rev_ind.
    + apply reach_init.
    + rewrite run_calls_snoc. apply reach_call. exact IH.
Qed.

(** What one call does to the widget object and to the trace. *)
Lemma run_call_world (c : Call) (w : World) :
  run c w =
  match c with
  | call_set_image value => snd (image_setter PixelMeta value w)
  | call_render =>
      if truthy (_image (self w)) then snd (render w) else w
  | call_get_content_width _ _ | call_get_content_height _ _ _ =>
      {| self := self w; n_queries := S (n_queries w); next_rid := next_rid w;
         trace := trace w ++ [EvGetTerminalSizes] |}
  | host_layout new_styles new_content_size =>
      with_self (relayout new_styles new_content_size (self w)) w
  end.
Proof.
  destruct c; cbn [run_call]; try reflexivity.
  - destruct (truthy (_image (self w))) eqn:Himg; [reflexivity |].
    rewrite render_falsy by assumption. reflexivity.
  - rewrite get_content_width_run. reflexivity.
  - rewrite get_content_height_run. reflexivity.
Qed.

Lemma run_call_image (c : Call) (w : World) :
  _image (self (run c w)) =
  match c with
  | call_set_image value => value
  | _ => _image (self w)
  end.
Proof.
  rewrite run_call_world. destruct c; try reflexivity.
  - apply (image_setter_world PixelMeta value w).
  - destruct (truthy (_image (self w))) eqn:Himg; [| reflexivity].
    rewrite (render_run w Himg). reflexivity.
Qed.

Lemma run_calls_image (calls : list Call) (w : World) :
  _image (self (runs calls w)) = last_assigned (_image (self w)) calls.
Proof.
  revert w. induction calls as [| c calls IH]; intros w; [reflexivity |].
  unfold run_calls, last_assigned in *. cbn [fold_left].
  rewrite IH, run_call_image. destruct c; reflexivity.
Qed.

(** Reading [image] returns what was last assigned, or the constructor's
    argument if nothing was assigned since; renders, measurements and
    layout in between do not matter, and reading changes nothing. *)
Theorem image_reads_last_assignment (i : Image) (image : ImageValue)
  (calls : list Call) :
  image_getter (runs calls (created PixelMeta image i)) =
  (Returns (last_assigned image calls), runs calls (created PixelMeta image i)).
Proof.
  unfold image_getter. step_body. rewrite run_calls_image.
  rewrite created_world.
  replace (_image (self (snd (image_setter PixelMeta image
             {| self := set_renderable None i; n_queries := 0; next_rid := 0;
                trace := [] |})))) with image; [reflexivity |].
  symmetry. apply (image_setter_world PixelMeta image).
Qed.

(** *** The cached pixel size *)

Lemma run_call_cache (c : Call) (w : World) :
  is_assignment c = false ->
  _image (self (run c w)) = _image (self w)
  /\ _image_width (self (run c w)) = _image_width (self w)
  /\ _image_height (self (run c w)) = _image_height (self w).
Proof.
  intros Hc. rewrite run_call_world. destruct c; try discriminate Hc;
    try (repeat split; reflexivity).
  destruct (truthy (_image (self w))) eqn:Himg; [| repeat split].
  rewrite (render_run w Himg). repeat split.
Qed.

(** Only an assignment to [image] writes the stored image and the cached
    pixel size: after any calls none of which is an assignment, whichever
    of them raised, the three are as before, so the measuring methods
    still hand [get_cell_size] the pixel size cached before those calls. *)
Theorem cache_written_only_by_assignment (calls : list Call) (w : World)
  (container viewport : Size.t) :
  count_calls is_assignment calls = 0%nat ->
  _image (self (runs calls w)) = _image (self w)
  /\ _image_width (self (runs calls w)) = _image_width (self w)
  /\ _image_height (self (runs calls w)) = _image_height (self w)
  /\ fst (get_content_width terminal_answer get_cell_size container viewport
            (runs calls w)) =
     outcome_map fst
       (get_cell_size
          (ImageSize.mk (_image_width (self w)) (_image_height (self w))
             (fst (_get_styled_size (self (runs calls w))))
             (snd (_get_styled_size (self (runs calls w)))))
          (Size.width container) (Size.height container)
          (terminal_answer (n_queries (runs calls w)))).
Proof.
  intros Hnone.
  assert (H : _image (self (runs calls w)) = _image (self w)
              /\ _image_width (self (runs calls w)) = _image_width (self w)
              /\ _image_height (self (runs calls w)) = _image_height (self w)).
  { revert w. induction calls as [| c calls IH]; intros w; [repeat split |].
    unfold count_calls in Hnone. cbn [filter] in Hnone.
    destruct (is_assignment c) eqn:Hc; [discriminate Hnone |].
    unfold run_calls in *. cbn [fold_left].
    destruct (IH Hnone (run c w)) as (Hi & Hw & Hh).
    destruct (run_call_cache c w Hc) as (Hi1 & Hw1 & Hh1).
    rewrite Hi, Hw, Hh. auto. }
  destruct H as (Hi & Hw & Hh).
  repeat (split; [assumption |]).
  rewrite get_content_width_run. cbn [fst]. rewrite Hw, Hh. reflexivity.
Qed.

(** *** Construction and cleanup of renderables *)

Lemma audit_cleanup_held (w : World) (used : list nat) :
  audit (trace w) = Some (held (self w), used) ->
  audit (trace w ++ cleanup_events (self w)) = Some ([], used).
Proof.
  intros Haudit. rewrite audit_app, Haudit.
  unfold held, cleanup_events.
  destruct (_renderable (self w)) as [r|]; cbn; [| reflexivity].
  destruct (Nat.eq_dec (rid r) (rid r)); [reflexivity | contradiction].
Qed.

Lemma image_setter_audited (value : ImageValue) (w : World) :
  audited w -> audited (snd (image_setter PixelMeta value w)).
Proof.
  intros (used & Haudit & Hbelow).
  pose proof (image_setter_world PixelMeta value w) as H. cbv zeta in H.
  destruct H as (Hr & _ & _ & _ & _ & Hn & _ & refreshes & Ht & Href).
  exists used. rewrite Hn. split; [| exact Hbelow].
  rewrite Ht, app_assoc, audit_app, (audit_cleanup_held w used Haudit).
  unfold held. rewrite Hr. destruct Href as [-> | ->]; reflexivity.
Qed.

Lemma run_call_audited (c : Call) (w : World) :
  audited w -> audited (run c w).
Proof.
  intros Haudited. rewrite run_call_world. destruct c.
  - apply image_setter_audited. exact Haudited.
  - destruct Haudited as (used & Haudit & Hbelow). unfold audited.
    destruct (truthy (_image (self w))) eqn:Himg; [| exists used; auto].
    rewrite (render_run w Himg). cbn [self trace next_rid snd].
    exists (next_rid w :: used). split.
    + rewrite app_assoc, audit_app, (audit_cleanup_held w used Haudit).
      cbn. destruct (in_dec Nat.eq_dec (next_rid w) used) as [Hin |];
        [apply Hbelow in Hin; lia | reflexivity].
    + intros id [<- | Hin]; [lia | apply Hbelow in Hin; lia].
  - destruct Haudited as (used & Haudit & Hbelow).
    exists used. cbn [self trace next_rid]. split; [| exact Hbelow].
    rewrite audit_app, Haudit. reflexivity.
  - destruct Haudited as (used & Haudit & Hbelow).
    exists used. cbn [self trace next_rid]. split; [| exact Hbelow].
    rewrite audit_app, Haudit. reflexivity.
  - exact Haudited.
Qed.

(** However the widget is used, [cleanup()] is only ever called on a
    renderable that was built before and has not been cleaned up since,
    so never twice on the same one and never on one that was not built;
    no identity is built twice; and when the calls are over the only
    renderable still live is the one the widget holds. *)
Theorem cleanup_once_and_only_after_construction (w : World) :
  Reachable terminal_answer get_cell_size PixelMeta w ->
  exists used,
    audit (trace w) = Some (held (self w), used)
    /\ forall id, In id used -> (id < next_rid w)%nat.
Proof.
  induction 1 as [i image | w c _ IH].
  - fold (created PixelMeta image i). rewrite created_world.
    apply image_setter_audited.
    exists []. split; [reflexivity | intros id []].
  - apply run_call_audited. exact IH.
Qed.

(** *** How often the widget reaches out *)

Lemma image_setter_refreshes (value : ImageValue) (w : World) :
  count_events is_refresh (trace (snd (image_setter PixelMeta value w)))
  = (count_events is_refresh (trace w)
     + if assignment_returns PixelMeta (call_set_image value) w then 1 else 0)%nat
  /\ count_events is_query (trace (snd (image_setter PixelMeta value w)))
    = count_events is_query (trace w)
  /\ count_events is_construction (trace (snd (image_setter PixelMeta value w)))
    = count_events is_construction (trace w).
Proof.
  unfold assignment_returns. rewrite image_setter_run.
  destruct (pixel_size_of PixelMeta value) as [pixel_meta | e];
    cbn [fst snd trace]; rewrite !count_events_app; unfold cleanup_events;
    destruct (_renderable (self w)); cbn; lia.
Qed.

Lemma run_call_counts (c : Call) (w : World) :
  count_events is_refresh (trace (run c w))
  = (count_events is_refresh (trace w)
     + if assignment_returns PixelMeta c w then 1 else 0)%nat
  /\ count_events is_query (trace (run c w))
    = (count_events is_query (trace w) + if is_measurement c then 1 else 0)%nat
  /\ (count_events is_construction (trace (run c w))
      <= count_events is_construction (trace w) + if is_render c then 1 else 0)%nat.
Proof.
  destruct c.
  - destruct (image_setter_refreshes value w) as (Hr & Hq & Hb).
    cbn [run_call is_measurement is_render]. rewrite Hr, Hq, Hb. lia.
  - rewrite run_call_world.
    cbn [assignment_returns is_measurement is_render].
    destruct (truthy (_image (self w))) eqn:Himg; [| lia].
    rewrite (render_run w Himg). cbn [snd trace].
    rewrite !count_events_app. unfold cleanup_events.
    destruct (_renderable (self w)); cbn; lia.
  - rewrite run_call_world.
    cbn [assignment_returns is_measurement is_render trace].
    rewrite !count_events_app. cbn. lia.
  - rewrite run_call_world.
    cbn [assignment_returns is_measurement is_render trace].
    rewrite !count_events_app. cbn. lia.
  - rewrite run_call_world.
    cbn [assignment_returns is_measurement is_render with_self trace]. lia.
Qed.

Lemma run_calls_counts (calls : list Call) (w : World) :
  count_events is_refresh (trace (runs calls w))
  = (count_events is_refresh (trace w)
     + returned_assignments terminal_answer get_cell_size PixelMeta calls w)%nat
  /\ (returned_assignments terminal_answer get_cell_size PixelMeta calls w
      <= count_calls is_assignment calls)%nat
  /\ count_events is_query (trace (runs calls w))
    = (count_events is_query (trace w) + count_calls is_measurement calls)%nat
  /\ (count_events is_construction (trace (runs calls w))
      <= count_events is_construction (trace w) + count_calls is_render calls)%nat.
Proof.
  revert w. induction calls as [| c calls IH]; intros w.
  - unfold count_calls. cbn. lia.
  - unfold run_calls in *. cbn [fold_left returned_assignments].
    destruct (IH (run c w)) as (Hr & Ha & Hq & Hb).
    destruct (run_call_counts c w) as (Hr1 & Hq1 & Hb1).
    unfold count_calls in *. cbn [filter].
    assert (Hle : ((if assignment_returns PixelMeta c w then 1 else 0)
                   <= (if is_assignment c then 1 else 0))%nat).
    { destruct c; cbn [assignment_returns is_assignment];
        try lia. destruct (fst (image_setter PixelMeta value w)); lia. }
    destruct (is_assignment c), (is_measurement c), (is_render c);
      cbn [List.length]; lia.
Qed.

(** Over any run the widget asks for a refresh once for the constructor
    and once for each assignment to [image] that returns, not for one
    that raises, and at no other time; it queries the terminal metrics
    once per measuring call, and at no other time; and it builds at most
    one renderable per [render] call. *)
Theorem refreshes_queries_and_constructions (i : Image) (image : ImageValue)
  (calls : list Call) :
  let w0 := created PixelMeta image i in
  let t := trace (runs calls w0) in
  let constructed :=
    match fst (__init__ PixelMeta image (blank i)) with
    | Returns _ => 1%nat
    | Raises _ => 0%nat
    end in
  count_events is_refresh t
  = (constructed
     + returned_assignments terminal_answer get_cell_size PixelMeta calls w0)%nat
  /\ (returned_assignments terminal_answer get_cell_size PixelMeta calls w0
      <= count_calls is_assignment calls)%nat
  /\ count_events is_query t = count_calls is_measurement calls
  /\ (count_events is_construction t <= count_calls is_render calls)%nat.
Proof.
  cbv zeta.
  destruct (run_calls_counts calls (created PixelMeta image i))
    as (Hr & Ha & Hq & Hb).
  assert (H0 : count_events is_refresh (trace (created PixelMeta image i))
               = match fst (__init__ PixelMeta image (blank i)) with
                 | Returns _ => 1%nat
                 | Raises _ => 0%nat
                 end
               /\ count_events is_query (trace (created PixelMeta image i)) = 0%nat
               /\ count_events is_construction (trace (created PixelMeta image i))
                  = 0%nat).
  { unfold created, __init__. step_body. rewrite image_setter_run.
    destruct (pixel_size_of PixelMeta image); cbn; repeat split. }
  destruct H0 as (H0r & H0q & H0b). lia.
Qed.

(** *** Calls in sequence *)

(** Two renders in a row on a truthy image: the renderable of the first
    is cleaned up before the second is built, the second is a new object
    with the next identity and the same arguments, and the widget holds
    the second. *)
Theorem render_twice (w : World) :
  truthy (_image (self w)) = true ->
  exists r1 w1 r2 w2,
    render w = (Returns r1, w1)
    /\ render w1 = (Returns r2, w2)
    /\ trace w2 =
       trace w ++ cleanup_events (self w)
         ++ [EvNewRenderable r1; EvCleanup r1; EvNewRenderable r2]
    /\ rid r2 = S (rid r1)
    /\ (r_image r2, r_width r2, r_height r2) = (r_image r1, r_width r1, r_height r1)
    /\ _renderable (self w2) = Some r2.
Proof.
  intros Himg.
  pose proof (render_run w Himg) as H1. cbv zeta in H1.
  eexists _, _.
  assert (Himg1 : truthy (_image (self (snd (render w)))) = true)
    by (rewrite H1; exact Himg).
  pose proof (render_run _ Himg1) as H2. cbv zeta in H2.
  rewrite H1 in H2. cbn [snd self trace next_rid set_renderable _image
                          _renderable cleanup_events] in H2.
  eexists _, _. split; [exact H1 |]. split; [exact H2 |].
  cbn [trace self rid r_image r_width r_height _renderable set_renderable].
  split; [rewrite <- !app_assoc; reflexivity |].
  repeat split.
Qed.

End Coverage.

(** *** Assignments *)

(** Assigning a falsy value, [None] or the empty string, never consults
    [PixelMeta]: the outcome is the same whatever [PixelMeta] would
    answer, and the next [render] fails its assertion. *)
Theorem falsy_assignment_skips_PixelMeta
  (PixelMeta1 PixelMeta2 : ImageValue -> Outcome PixelMetaT)
  (value : ImageValue) (w : World) :
  truthy value = false ->
  (value = None \/ value = Some (SrcStr EmptyString))
  /\ image_setter PixelMeta1 value w = image_setter PixelMeta2 value w
  /\ render (snd (image_setter PixelMeta1 value w))
     = (Raises AssertionError, snd (image_setter PixelMeta1 value w)).
Proof.
  intros Hfalsy. split; [apply truthy_false; assumption |].
  split.
  - rewrite !image_setter_run. unfold pixel_size_of. rewrite Hfalsy. reflexivity.
  - apply render_falsy.
    replace (_image (self (snd (image_setter PixelMeta1 value w)))) with value;
      [exact Hfalsy |].
    symmetry. apply (image_setter_world PixelMeta1 value w).
Qed.

(** Of two assignments in a row, the second finds no renderable to clean
    up and returns or raises as it would have alone.  When it returns,
    the widget's attributes are those a lone second assignment leaves,
    whether or not the first returned; when it raises, the second value
    is stored over the cache the first left. *)
Theorem last_assignment_wins (PixelMeta : ImageValue -> Outcome PixelMetaT)
  (first second : ImageValue) (w : World) :
  let w1 := snd (image_setter PixelMeta first w) in
  let w2 := snd (image_setter PixelMeta second w1) in
  cleanup_events (self w1) = []
  /\ fst (image_setter PixelMeta second w1) = fst (image_setter PixelMeta second w)
  /\ (fst (image_setter PixelMeta second w1) = Returns tt ->
      self w2 = self (snd (image_setter PixelMeta second w)))
  /\ (forall e,
        fst (image_setter PixelMeta second w1) = Raises e ->
        _image (self w2) = second
        /\ _renderable (self w2) = None
        /\ _image_width (self w2) = _image_width (self w1)
        /\ _image_height (self w2) = _image_height (self w1)).
Proof.
  cbv zeta. rewrite !image_setter_run.
  destruct (pixel_size_of PixelMeta first) as [pm1 | e1];
    destruct (pixel_size_of PixelMeta second) as [pm2 | e2];
    cbn [fst snd self _renderable _image _image_width _image_height styles
           content_size cleanup_events];
    repeat split; intros; try discriminate; reflexivity.
Qed.

(** * The example widget *)

Lemma example_session_reachable :
  Reachable example_terminal CellSizeResolver.get_cell_size example_PixelMeta
    example_session.
Proof.
  apply Reachable_runs. exists example_widget, example_image, example_calls.
  reflexivity.
Qed.

(** C9 where it fails as stated: [missing.png] is assigned to the widget
    that shows [cat.png].  The setter raises; the widget now stores
    [missing.png] with the 800x400 cached for [cat.png], and no refresh
    was asked for. *)
Lemma assignment_of_unreadable_image :
  truthy missing_image = true
  /\ fst (image_setter example_PixelMeta missing_image example_world)
     = Raises (OtherException "FileNotFoundError")
  /\ _image (self (snd (image_setter example_PixelMeta missing_image example_world)))
     = missing_image
  /\ _image (self example_world) = example_image
  /\ _image_width (self (snd (image_setter example_PixelMeta missing_image
                                example_world))) = 800
  /\ _image_height (self (snd (image_setter example_PixelMeta missing_image
                                 example_world))) = 400
  /\ trace (snd (image_setter example_PixelMeta missing_image example_world))
     = trace example_world
  /\ count_events is_refresh
       (trace (snd (image_setter example_PixelMeta missing_image example_world)))
     = count_events is_refresh (trace example_world).
Proof. repeat split. Qed.

(** After the example session, in which two renderables were built, both
    have been cleaned up and the widget holds none. *)
Lemma widget_never_leaks_a_renderable_example :
  (truthy (_image (self example_session)) = false ->
   _image_width (self example_session) = 0
   /\ _image_height (self example_session) = 0)
  /\ live (trace example_session) = held (self example_session)
  /\ (forall r, In (EvNewRenderable r) (trace example_session) ->
                (rid r < next_rid example_session)%nat).
Proof.
  apply (widget_never_leaks_a_renderable example_terminal
           CellSizeResolver.get_cell_size example_PixelMeta example_session).
  apply example_session_reachable.
Defined.

Lemma cleanup_once_and_only_after_construction_example :
  exists used,
    audit (trace example_session) = Some (held (self example_session), used)
    /\ forall id, In id used -> (id < next_rid example_session)%nat.
Proof.
  apply (cleanup_once_and_only_after_construction example_terminal
           CellSizeResolver.get_cell_size example_PixelMeta example_session).
  apply example_session_reachable.
Defined.

(** Measuring, rendering, restyling and rendering again leave the example
    widget's image and its cached 800x400 alone. *)
Lemma cache_written_only_by_assignment_example :
  _image (self (run_calls example_terminal CellSizeResolver.get_cell_size
                  example_PixelMeta (firstn 5 example_calls) example_world))
  = example_image
  /\ _image_width
       (self (run_calls example_terminal CellSizeResolver.get_cell_size
                example_PixelMeta (firstn 5 example_calls) example_world))
     = 800
  /\ _image_height
       (self (run_calls example_terminal CellSizeResolver.get_cell_size
                example_PixelMeta (firstn 5 example_calls) example_world))
     = 400
  /\ fst (get_content_width example_terminal CellSizeResolver.get_cell_size
            (Size.mk 100 100) (Size.mk 100 100)
            (run_calls example_terminal CellSizeResolver.get_cell_size
               example_PixelMeta (firstn 5 example_calls) example_world))
     = Returns 80.
Proof.
  apply (cache_written_only_by_assignment example_terminal
           CellSizeResolver.get_cell_size example_PixelMeta
           (firstn 5 example_calls) example_world
           (Size.mk 100 100) (Size.mk 100 100)).
  reflexivity.
Defined.

Lemma render_twice_example :
  exists r1 w1 r2 w2,
    render example_world = (Returns r1, w1)
    /\ render w1 = (Returns r2, w2)
    /\ trace w2 =
       trace example_world ++ cleanup_events (self example_world)
         ++ [EvNewRenderable r1; EvCleanup r1; EvNewRenderable r2]
    /\ rid r2 = S (rid r1)
    /\ (r_image r2, r_width r2, r_height r2) = (r_image r1, r_width r1, r_height r1)
    /\ _renderable (self w2) = Some r2.
Proof. apply (render_twice example_world). reflexivity. Defined.

(** Assigning the empty string to the example widget, once with the
    example's [PixelMeta] and once with one that always raises. *)
Lemma falsy_assignment_skips_PixelMeta_example :
  (Some (SrcStr EmptyString) = None
   \/ Some (SrcStr EmptyString) = Some (SrcStr EmptyString))
  /\ image_setter example_PixelMeta (Some (SrcStr EmptyString)) example_world
     = image_setter (fun _ => Raises (OtherException "OSError"))
         (Some (SrcStr EmptyString)) example_world
  /\ render (snd (image_setter example_PixelMeta (Some (SrcStr EmptyString))
                    example_world))
     = (Raises AssertionError,
        snd (image_setter example_PixelMeta (Some (SrcStr EmptyString))
               example_world)).
Proof.
  apply (falsy_assignment_skips_PixelMeta example_PixelMeta
           (fun _ => Raises (OtherException "OSError"))
           (Some (SrcStr EmptyString)) example_world).
  reflexivity.
Defined.
